(** * Verification of the two patch scripts of mobile-crm

    [app/fix_builtup.py] splices a block of text into [add-inventory.tsx]
    after a marker line; [app/reconstruct_inventory.py] overwrites the same
    file with a fixed literal.  Both scripts are embedded below as functions
    over an explicit world (file store and event trace); exceptions are
    values of an error type. *)

From Stdlib Require Import Ascii String List Arith Lia.
From stdpp Require Import base option list gmap strings.

Open Scope string_scope.
Open Scope list_scope.

(** ** Python primitives used by the scripts *)

Module Py.

(** Text is modelled as the sequence of bytes of its UTF-8 encoding.
    Substring containment on code points and on their UTF-8 encoding
    coincide, since UTF-8 is self-synchronising. *)

Definition LF : ascii := ascii_of_nat 10.
Definition CR : ascii := ascii_of_nat 13.

(** The double quote character, as a one-character string. *)
Definition Q : string := String (ascii_of_nat 34) EmptyString.

(** The strings of [ls] one after the other, nothing between them. *)
Fixpoint join (ls : list string) : string :=
  match ls with
  | [] => EmptyString
  | l :: ls' => l +:+ join ls'
  end.

(** A triple-quoted literal whose source lines are [ls]: every line is
    followed by a line feed. *)
Definition text_block (ls : list string) : string :=
  join (map (fun l => l +:+ String LF EmptyString) ls).

(** [p] is an initial segment of [s]. *)
Fixpoint startswith (p s : string) : bool :=
  match p, s with
  | EmptyString, _ => true
  | String _ _, EmptyString => false
  | String a p', String b s' => if Ascii.eqb a b then startswith p' s' else false
  end.

(** [sub in s] on [str]. *)
Fixpoint str_in (sub s : string) : bool :=
  startswith sub s ||
  match s with
  | EmptyString => false
  | String _ s' => str_in sub s'
  end.

(** Exceptions the scripts can raise. *)
Inductive exn : Type :=
| IndexError
| ValueError
| FileNotFoundError.

Inductive result (A : Type) : Type :=
| Ok (a : A)
| Raise (e : exn).
Arguments Ok {A} a.
Arguments Raise {A} e.

#[global] Instance result_ret : MRet result := fun _ a => Ok a.
#[global] Instance result_bind : MBind result := fun _ _ f m =>
  match m with
  | Ok a => f a
  | Raise e => Raise e
  end.

(** [l.index(x)]: position of the first element equal to [x]. *)
Fixpoint list_index (x : string) (l : list string) : result nat :=
  match l with
  | [] => Raise ValueError
  | y :: l' => if String.eqb y x then Ok 0 else i ← list_index x l'; mret (S i)
  end.

(** [l[i]] for a non-negative [i]. *)
Definition getitem (l : list string) (i : nat) : result string :=
  match l !! i with
  | Some x => Ok x
  | None => Raise IndexError
  end.

(** Text-mode reading translates the line endings CR LF and CR to LF
    (universal newlines, the default of [open]). *)
Fixpoint universal_newlines (s : string) : string :=
  match s with
  | EmptyString => EmptyString
  | String c s' =>
      if Ascii.eqb c CR then
        match s' with
        | String d s'' =>
            if Ascii.eqb d LF then String LF (universal_newlines s'')
            else String LF (universal_newlines s')
        | EmptyString => String LF EmptyString
        end
      else String c (universal_newlines s')
  end.

(** Splitting after every line feed, terminators kept; a final piece
    without terminator is a line of its own. *)
Fixpoint splitlines_keepends (s : string) : list string :=
  match s with
  | EmptyString => []
  | String c s' =>
      if Ascii.eqb c LF then String c EmptyString :: splitlines_keepends s'
      else match splitlines_keepends s' with
           | [] => [String c EmptyString]
           | l :: ls => String c l :: ls
           end
  end.

(** [f.readlines()] on a file opened in text mode. *)
Definition readlines (content : string) : list string :=
  splitlines_keepends (universal_newlines content).

(** *** The world: a file store and the trace of what the run did *)

Inductive event : Type :=
| EvOpenRead (path : string)
| EvOpenWrite (path : string)
| EvWrite (path : string) (data : string)
| EvPrint (line : string).

Record world : Type := World {
  files : gmap string string;
  trace : list event
}.

(** A run threads the world and may stop with an exception; the world at
    the point of the exception is kept. *)
Definition io (A : Type) : Type := world -> world * result A.

#[global] Instance io_ret : MRet io := fun _ a w => (w, Ok a).
#[global] Instance io_bind : MBind io := fun _ _ f m w =>
  match m w with
  | (w', Ok a) => f a w'
  | (w', Raise e) => (w', Raise e)
  end.

Definition lift {A : Type} (r : result A) : io A := fun w => (w, r).

Definition log (e : event) (w : world) : world :=
  World (files w) (trace w ++ [e]).

(** [open(path, "r")] followed by reading the whole file. *)
Definition open_read (path : string) : io string := fun w =>
  match files w !! path with
  | Some content => (log (EvOpenRead path) w, Ok content)
  | None => (w, Raise FileNotFoundError)
  end.

(** [open(path, "w")]: the file is created or truncated. *)
Definition open_write (path : string) : io unit := fun w =>
  (World (<[path := EmptyString]> (files w)) (trace w ++ [EvOpenWrite path]), Ok tt).

(** [f.write(data)]: the data is appended to what was written so far;
    no line ending is translated on the way out (POSIX). *)
Definition write (path data : string) : io unit := fun w =>
  (World (alter (fun old => old +:+ data) path (files w))
         (trace w ++ [EvWrite path data]), Ok tt).

(** [f.writelines(ls)]: every string is written in turn, nothing is
    added between them. *)
Fixpoint writelines (path : string) (ls : list string) : io unit :=
  match ls with
  | [] => mret tt
  | l :: ls' => _ ← write path l; writelines path ls'
  end.

Definition print (line : string) : io unit := fun w =>
  (log (EvPrint line) w, Ok tt).

(** What a trace printed, written and opened for writing. *)
Definition printed (t : list event) : list string :=
  omap (fun e => match e with EvPrint s => Some s | _ => None end) t.

Definition is_write (e : event) : bool :=
  match e with
  | EvOpenWrite _ | EvWrite _ _ => true
  | _ => false
  end.

(** A string with no line feed before its last character: the shape of
    every element [readlines] returns. *)
Fixpoint one_line (l : string) : bool :=
  match l with
  | EmptyString => true
  | String c l' =>
      if Ascii.eqb c LF then
        match l' with EmptyString => true | String _ _ => false end
      else one_line l'
  end.

(** The character [c] does not occur in [s]. *)
Fixpoint free_of (c : ascii) (s : string) : bool :=
  match s with
  | EmptyString => true
  | String d s' => negb (Ascii.eqb d c) && free_of c s'
  end.

End Py.

Import Py.

(** ** app/fix_builtup.py *)

Module FixBuiltup.

Definition filepath : string :=
  "/Applications/Bharat Properties/mobile-app/app/add-inventory.tsx".

Definition start_marker : string :=
  "// ─── Builtup Detail/Type Fetching effects ───────────────────────────────────".

Definition end_marker : string :=
  text_block ["    useEffect(() => {"].

Definition replacement_end_marker : string :=
  end_marker +:+ "        const fetchSystemData = async () => {".

Definition new_code_text : list string := [
    "    useEffect(() => {";
    "        const fetchBuiltupDetail = async () => {";
    "            if (!form.subCategory) { setBuiltupDetailLookups([]); return; }";
    "            try {";
    "                const scRes = await api.get(" +:+ Q +:+ "/lookups" +:+ Q +:+ ", { params: { lookup_type: 'SubCategory', lookup_value: form.subCategory } });";
    "                const scId = scRes.data?.data?.[0]?._id;";
    "                if (!scId) { setBuiltupDetailLookups([]); return; }";
    "                const ptRes = await api.get(" +:+ Q +:+ "/lookups" +:+ Q +:+ ", { params: { lookup_type: 'PropertyType', parent_lookup_id: scId } });";
    "                setBuiltupDetailLookups((ptRes.data?.data || []).map((pt: any) => ({ label: pt.lookup_value, value: pt.lookup_value, _id: pt._id })));";
    "            } catch (e) { console.error(" +:+ Q +:+ "Builtup Detail fetch failed" +:+ Q +:+ ", e); }";
    "        };";
    "        fetchBuiltupDetail();";
    "    }, [form.subCategory]);";
    "";
    "    useEffect(() => {";
    "        const fetchBT = async () => {";
    "            if (!form.builtupDetail) { setBtLookups([]); return; }";
    "            try {";
    "                const pt = builtupDetailLookups.find(opt => opt.value === form.builtupDetail);";
    "                if (!pt?._id) { setBtLookups([]); return; }";
    "                const btRes = await api.get(" +:+ Q +:+ "/lookups" +:+ Q +:+ ", { params: { lookup_type: 'BuiltupType', parent_lookup_id: pt._id, limit: 1000 } });";
    "                setBtLookups((btRes.data?.data || []).map((bt: any) => ({ label: bt.lookup_value, value: bt.lookup_value })));";
    "            } catch (e) { console.error(" +:+ Q +:+ "BT fetch failed" +:+ Q +:+ ", e); }";
    "        };";
    "        fetchBT();";
    "    }, [form.builtupDetail, builtupDetailLookups]);";
    ""
  ].

Definition new_code : string := text_block new_code_text.

(** The three variables the loop updates. *)
Record scan_state : Type := ScanState {
  new_lines : list string;
  skip : bool;
  found_marker : bool
}.

Definition initial : scan_state := ScanState [] false false.

(** The second and third conjunct of the loop's second [if]: the line
    contains the opening of an effect and the line after the first line
    equal to it, [lines[lines.index(line)+1]], mentions [fetchSystemData].
    The lookup is evaluated only when the first test holds. *)
Definition is_region_end (lines : list string) (line : string) : result bool :=
  if str_in "useEffect(() => {" line then
    i ← list_index line lines;
    next ← getitem lines (i + 1);
    mret (str_in "fetchSystemData" next)
  else mret false.

(** One iteration of [for line in lines]. *)
Definition step (lines : list string) (st : scan_state) (line : string)
  : result scan_state :=
  if str_in start_marker line then
    mret (ScanState (new_lines st ++ [line; new_code]) true true)
  else
    (if skip st then is_region_end lines line else Ok false) ≫= fun stop : bool =>
    let skip' := if stop then false else skip st in
    mret (ScanState (if skip' then new_lines st else new_lines st ++ [line])
                    skip' (found_marker st)).

Fixpoint loop (lines : list string) (st : scan_state) (todo : list string)
  : result scan_state :=
  match todo with
  | [] => mret st
  | line :: todo' => st' ← step lines st line; loop lines st' todo'
  end.

(** The whole [for] loop, from the initial values of the variables. *)
Definition scan (lines : list string) : result scan_state :=
  loop lines initial lines.

Definition msg_updated : string := "Successfully updated the file.".
Definition msg_not_found : string := "Could not find the start marker.".

(** The script, top to bottom. *)
Definition main : io unit :=
  content ← open_read filepath;
  let lines := readlines content in
  st ← lift (scan lines);
  if found_marker st then
    _ ← open_write filepath;
    _ ← writelines filepath (new_lines st);
    print msg_updated
  else
    print msg_not_found.

End FixBuiltup.

(** ** app/reconstruct_inventory.py *)

Module ReconstructInventory.

Definition filepath : string :=
  "/Applications/Bharat Properties/mobile-app/app/add-inventory.tsx".

Definition code_text : list string := [
    "import React, { useState, useEffect } from " +:+ Q +:+ "react" +:+ Q +:+ ";";
    "import {";
    "    View, Text, TextInput, TouchableOpacity, StyleSheet,";
    "    ScrollView, ActivityIndicator, Alert, KeyboardAvoidingView, Platform, SafeAreaView,";
    "    Modal, FlatList";
    "} from " +:+ Q +:+ "react-native" +:+ Q +:+ ";";
    "import { useRouter } from " +:+ Q +:+ "expo-router" +:+ Q +:+ ";";
    "import api from " +:+ Q +:+ "./services/api" +:+ Q +:+ ";";
    "import { Ionicons } from " +:+ Q +:+ "@expo/vector-icons" +:+ Q +:+ ";";
    "";
    "// ─── Reusable Components ──────────────────────────────────────────────────────";
    "";
    "function SectionHeader({ title, icon }: { title: string; icon: string }) {";
    "    return (";
    "        <View style={styles.sectionHeader}>";
    "            <Text style={styles.sectionIcon}>{icon}</Text>";
    "            <Text style={styles.sectionTitle}>{title}</Text>";
    "        </View>";
    "    );";
    "}";
    "";
    "function Field({ label, required, children }: { label: string; required?: boolean; children: React.ReactNode }) {";
    "    return (";
    "        <View style={styles.field}>";
    "            <Text style={styles.fieldLabel}>";
    "                {label}";
    "                {required && <Text style={styles.required}> *</Text>}";
    "            </Text>";
    "            {children}";
    "        </View>";
    "    );";
    "}";
    "";
    "function Input({";
    "    value, onChangeText, placeholder, keyboardType, multiline, numberOfLines, editable = true,";
    "}: {";
    "    value: string; onChangeText: (t: string) => void; placeholder?: string;";
    "    keyboardType?: any; multiline?: boolean; numberOfLines?: number; editable?: boolean;";
    "}) {";
    "    return (";
    "        <TextInput";
    "            style={[styles.input, multiline && { height: 80, textAlignVertical: " +:+ Q +:+ "top" +:+ Q +:+ " }, !editable && { backgroundColor: " +:+ Q +:+ "#F1F5F9" +:+ Q +:+ ", color: " +:+ Q +:+ "#94A3B8" +:+ Q +:+ " }]}";
    "            value={value}";
    "            onChangeText={onChangeText}";
    "            placeholder={placeholder ?? " +:+ Q +:+ Q +:+ "}";
    "            placeholderTextColor=" +:+ Q +:+ "#9CA3AF" +:+ Q;
    "            keyboardType={keyboardType ?? " +:+ Q +:+ "default" +:+ Q +:+ "}";
    "            multiline={multiline}";
    "            numberOfLines={numberOfLines}";
    "            editable={editable}";
    "        />";
    "    );";
    "}";
    "";
    "function SelectButton({";
    "    value, placeholder, options, onSelect,";
    "}: {";
    "    value: string; placeholder: string; options: { label: string, value: string }[]; onSelect: (v: string) => void;";
    "}) {";
    "    if (options.length === 0) return <Text style={{ color: '#9CA3AF', fontSize: 13, padding: 8 }}>{placeholder}</Text>;";
    "";
    "    return (";
    "        <ScrollView horizontal showsHorizontalScrollIndicator={false} style={styles.chipRow}>";
    "            {options.map((opt, idx) => (";
    "                <TouchableOpacity";
    "                    key={`${opt.value || idx}-${idx}`}";
    "                    style={[styles.chip, value === opt.value && styles.chipSelected]}";
    "                    onPress={() => onSelect(opt.value === value ? " +:+ Q +:+ Q +:+ " : opt.value)}";
    "                >";
    "                    <Text style={[styles.chipText, value === opt.value && styles.chipTextSelected]}>{opt.label}</Text>";
    "                </TouchableOpacity>";
    "            ))}";
    "        </ScrollView>";
    "    );";
    "}";
    "";
    "// ─── Searchable Dropdown ──────────────────────────────────────────────────────";
    "";
    "function SearchableDropdown({";
    "    visible, onClose, options, onSelect, placeholder";
    "}: {";
    "    visible: boolean; onClose: () => void; options: { label: string, value: string }[]; onSelect: (v: string) => void; placeholder: string;";
    "}) {";
    "    const [search, setSearch] = useState(" +:+ Q +:+ Q +:+ ");";
    "    const filtered = options.filter(o => o.label.toLowerCase().includes(search.toLowerCase()));";
    "";
    "    return (";
    "        <Modal visible={visible} animationType=" +:+ Q +:+ "slide" +:+ Q +:+ " transparent={true} onRequestClose={onClose}>";
    "            <View style={styles.modalOverlay}>";
    "                <View style={styles.modalContent}>";
    "                    <View style={styles.modalHeader}>";
    "                        <Text style={styles.modalTitle}>{placeholder}</Text>";
    "                        <TouchableOpacity onPress={onClose} hitSlop={{ top: 10, bottom: 10, left: 10, right: 10 }}>";
    "                            <Ionicons name=" +:+ Q +:+ "close" +:+ Q +:+ " size={24} color=" +:+ Q +:+ "#64748b" +:+ Q +:+ " />";
    "                        </TouchableOpacity>";
    "                    </View>";
    "                    <TextInput";
    "                        style={styles.modalSearchInput}";
    "                        placeholder=" +:+ Q +:+ "Search..." +:+ Q;
    "                        value={search}";
    "                        onChangeText={setSearch}";
    "                        placeholderTextColor=" +:+ Q +:+ "#9ca3af" +:+ Q;
    "                    />";
    "                    <FlatList";
    "                        data={filtered}";
    "                        keyExtractor={(item, idx) => `${item.value}-${idx}`}";
    "                        renderItem={({ item }) => (";
    "                            <TouchableOpacity style={styles.modalListItem} onPress={() => { onSelect(item.value); onClose(); }}>";
    "                                <Text style={styles.modalListItemText}>{item.label}</Text>";
    "                            </TouchableOpacity>";
    "                        )}";
    "                        ListEmptyComponent={<Text style={styles.modalEmptyText}>No results found</Text>}";
    "                        keyboardShouldPersistTaps=" +:+ Q +:+ "handled" +:+ Q;
    "                    />";
    "                </View>";
    "            </View>";
    "        </Modal>";
    "    );";
    "}";
    "";
    "// ─── Main Form ────────────────────────────────────────────────────────────────";
    "";
    "interface BuiltupRow {";
    "    floor: string;";
    "    cluster: string;";
    "    length: string;";
    "    width: string;";
    "    totalArea: string;";
    "}";
    "";
    "interface OwnerLink {";
    "    id: string;";
    "    name: string;";
    "    mobile: string;";
    "    role: string;";
    "    relationship: string;";
    "}";
    "";
    "interface InventoryForm {";
    "    // Basic Unit Details";
    "    category: string;";
    "    subCategory: string;";
    "    unitNo: string;";
    "    unitType: string;";
    "    projectName: string;";
    "    projectId: string;";
    "    block: string;";
    "    size: string;";
    "    direction: string;";
    "    facing: string;";
    "    roadWidth: string;";
    "    ownership: string;";
    "";
    "    // Builtup Details";
    "    builtupDetail: string;";
    "    builtupType: string;";
    "    builtupDetails: BuiltupRow[];";
    "";
    "    // Furnishing & Dates";
    "    occupationDate: string;";
    "    ageOfConstruction: string;";
    "    possessionStatus: string;";
    "    furnishType: string;";
    "    furnishedItems: string;";
    "";
    "    // Location";
    "    locationSearch: string;";
    "    address: {";
    "        country: string;";
    "        state: string;";
    "        city: string;";
    "        location: string;";
    "        tehsil: string;";
    "        postOffice: string;";
    "        pinCode: string;";
    "        hNo: string;";
    "        street: string;";
    "        area: string;";
    "    };";
    "";
    "    // Owners";
    "    owners: OwnerLink[];";
    "";
    "    // System Assignment";
    "    assignedTo: string;";
    "    team: string;";
    "    status: string;";
    "    intent: string;";
    "    visibleTo: string;";
    "}";
    "";
    "const INITIAL: InventoryForm = {";
    "    category: " +:+ Q +:+ "Residential" +:+ Q +:+ ", subCategory: " +:+ Q +:+ Q +:+ ", unitNo: " +:+ Q +:+ Q +:+ ", unitType: " +:+ Q +:+ Q +:+ ",";
    "    projectName: " +:+ Q +:+ Q +:+ ", projectId: " +:+ Q +:+ Q +:+ ", block: " +:+ Q +:+ Q +:+ ", size: " +:+ Q +:+ Q +:+ ",";
    "    direction: " +:+ Q +:+ Q +:+ ", facing: " +:+ Q +:+ Q +:+ ", roadWidth: " +:+ Q +:+ Q +:+ ", ownership: " +:+ Q +:+ Q +:+ ",";
    "    builtupDetail: " +:+ Q +:+ Q +:+ ", builtupType: " +:+ Q +:+ Q +:+ ",";
    "    builtupDetails: [{ floor: " +:+ Q +:+ "Ground Floor" +:+ Q +:+ ", cluster: " +:+ Q +:+ Q +:+ ", length: " +:+ Q +:+ Q +:+ ", width: " +:+ Q +:+ Q +:+ ", totalArea: " +:+ Q +:+ Q +:+ " }],";
    "    occupationDate: " +:+ Q +:+ Q +:+ ", ageOfConstruction: " +:+ Q +:+ Q +:+ ", possessionStatus: " +:+ Q +:+ Q +:+ ", furnishType: " +:+ Q +:+ Q +:+ ", furnishedItems: " +:+ Q +:+ Q +:+ ",";
    "    locationSearch: " +:+ Q +:+ Q +:+ ",";
    "    address: { country: " +:+ Q +:+ Q +:+ ", state: " +:+ Q +:+ Q +:+ ", city: " +:+ Q +:+ Q +:+ ", location: " +:+ Q +:+ Q +:+ ", tehsil: " +:+ Q +:+ Q +:+ ", postOffice: " +:+ Q +:+ Q +:+ ", pinCode: " +:+ Q +:+ Q +:+ ", hNo: " +:+ Q +:+ Q +:+ ", street: " +:+ Q +:+ Q +:+ ", area: " +:+ Q +:+ Q +:+ " },";
    "    owners: [],";
    "    assignedTo: " +:+ Q +:+ Q +:+ ", team: " +:+ Q +:+ Q +:+ ", status: " +:+ Q +:+ "Active" +:+ Q +:+ ", intent: " +:+ Q +:+ "Sell" +:+ Q +:+ ", visibleTo: " +:+ Q +:+ "Everyone" +:+ Q +:+ ",";
    "};";
    "";
    "export default function AddInventoryScreen() {";
    "    const router = useRouter();";
    "    const [form, setForm] = useState<InventoryForm>(INITIAL);";
    "    const [saving, setSaving] = useState(false);";
    "    const [projectModalVisible, setProjectModalVisible] = useState(false);";
    "";
    "    // Master Data States";
    "    const [propertyConfig, setPropertyConfig] = useState<any>({});";
    "    const [masterFields, setMasterFields] = useState<any>({});";
    "    const [projects, setProjects] = useState<any[]>([]);";
    "    const [sizes, setSizes] = useState<any[]>([]);";
    "";
    "    const [facingLookups, setFacingLookups] = useState<any[]>([]);";
    "";
    "    const [teams, setTeams] = useState<any[]>([]);";
    "    const [users, setUsers] = useState<any[]>([]);";
    "";
    "    // Owner Search State";
    "    const [ownerSearch, setOwnerSearch] = useState(" +:+ Q +:+ Q +:+ ");";
    "    const [searchResults, setSearchResults] = useState<any[]>([]);";
    "    const [searching, setSearching] = useState(false);";
    "    const [selectedOwner, setSelectedOwner] = useState<any>(null);";
    "    const [linkData, setLinkData] = useState({ role: " +:+ Q +:+ "Property Owner" +:+ Q +:+ ", relationship: " +:+ Q +:+ Q +:+ " });";
    "";
    "    // Location Lookup States";
    "    const [countries, setCountries] = useState<any[]>([]);";
    "    const [states, setStates] = useState<any[]>([]);";
    "    const [cities, setCities] = useState<any[]>([]);";
    "    const [locations, setLocations] = useState<any[]>([]);";
    "    const [tehsils, setTehsils] = useState<any[]>([]);";
    "    const [postOffices, setPostOffices] = useState<any[]>([]);";
    "";
    "    const [activeLocDropdown, setActiveLocDropdown] = useState<string | null>(null);";
    "    const [builtupDetailLookups, setBuiltupDetailLookups] = useState<any[]>([]);";
    "    const [btLookups, setBtLookups] = useState<any[]>([]);";
    "";
    "    const set = (key: keyof InventoryForm) => (val: any) =>";
    "        setForm((f) => ({ ...f, [key]: val }));";
    "";
    "    const setAddress = (key: keyof InventoryForm['address']) => (val: string) => {";
    "        setForm(f => {";
    "            const newAddr = { ...f.address, [key]: val };";
    "            // Cascading resets";
    "            if (key === 'country') { newAddr.state = " +:+ Q +:+ Q +:+ "; newAddr.city = " +:+ Q +:+ Q +:+ "; newAddr.location = " +:+ Q +:+ Q +:+ "; newAddr.tehsil = " +:+ Q +:+ Q +:+ "; newAddr.postOffice = " +:+ Q +:+ Q +:+ "; newAddr.pinCode = " +:+ Q +:+ Q +:+ "; }";
    "            if (key === 'state') { newAddr.city = " +:+ Q +:+ Q +:+ "; newAddr.location = " +:+ Q +:+ Q +:+ "; newAddr.tehsil = " +:+ Q +:+ Q +:+ "; newAddr.postOffice = " +:+ Q +:+ Q +:+ "; newAddr.pinCode = " +:+ Q +:+ Q +:+ "; }";
    "            if (key === 'city') { newAddr.location = " +:+ Q +:+ Q +:+ "; newAddr.tehsil = " +:+ Q +:+ Q +:+ "; newAddr.postOffice = " +:+ Q +:+ Q +:+ "; newAddr.pinCode = " +:+ Q +:+ Q +:+ "; }";
    "            if (key === 'location') { newAddr.postOffice = " +:+ Q +:+ Q +:+ "; newAddr.pinCode = " +:+ Q +:+ Q +:+ "; }";
    "            return { ...f, address: newAddr };";
    "        });";
    "    };";
    "";
    "    // ─── Location Data Fetching Effects ──────────────────────────────────────────";
    "    const fetchLocLookup = async (lookup_type: string, parent_id: string | null = null) => {";
    "        try {";
    "            const params: any = { lookup_type, limit: 1000 };";
    "            if (parent_id) params.parent_lookup_id = parent_id;";
    "";
    "            const res = await api.get(" +:+ Q +:+ "/lookups" +:+ Q +:+ ", { params });";
    "            return res.data?.data || [];";
    "        } catch (error) {";
    "            console.error(`Fetch error for ${lookup_type}:`, error);";
    "            return [];";
    "        }";
    "    };";
    "";
    "    useEffect(() => { fetchLocLookup(" +:+ Q +:+ "Country" +:+ Q +:+ ").then(setCountries); }, []);";
    "";
    "    useEffect(() => {";
    "        if (!form.address.country) { setStates([]); return; }";
    "        fetchLocLookup(" +:+ Q +:+ "State" +:+ Q +:+ ", form.address.country).then(setStates);";
    "    }, [form.address.country]);";
    "";
    "    useEffect(() => {";
    "        if (!form.address.state) { setCities([]); return; }";
    "        fetchLocLookup(" +:+ Q +:+ "City" +:+ Q +:+ ", form.address.state).then(setCities);";
    "    }, [form.address.state]);";
    "";
    "    useEffect(() => {";
    "        if (!form.address.city) { setLocations([]); setTehsils([]); return; }";
    "        fetchLocLookup(" +:+ Q +:+ "Location" +:+ Q +:+ ", form.address.city).then(setLocations);";
    "        fetchLocLookup(" +:+ Q +:+ "Tehsil" +:+ Q +:+ ", form.address.city).then(setTehsils);";
    "    }, [form.address.city]);";
    "";
    "    useEffect(() => {";
    "        if (!form.address.location) { setPostOffices([]); return; }";
    "        fetchLocLookup(" +:+ Q +:+ "PostOffice" +:+ Q +:+ ", form.address.location).then(setPostOffices);";
    "    }, [form.address.location]);";
    "";
    "    useEffect(() => {";
    "        if (!form.address.postOffice) return;";
    "        fetchLocLookup(" +:+ Q +:+ "Pincode" +:+ Q +:+ ", form.address.postOffice).then(data => {";
    "            if (data.length === 1) setAddress('pinCode')(data[0].lookup_value);";
    "        });";
    "    }, [form.address.postOffice]);";
    "";
    "    // ─── Builtup Detail/Type Fetching effects ───────────────────────────────────";
    "    useEffect(() => {";
    "        const fetchBuiltupDetail = async () => {";
    "            if (!form.subCategory) { setBuiltupDetailLookups([]); return; }";
    "            try {";
    "                const scRes = await api.get(" +:+ Q +:+ "/lookups" +:+ Q +:+ ", { params: { lookup_type: 'SubCategory', lookup_value: form.subCategory } });";
    "                const scId = scRes.data?.data?.[0]?._id;";
    "                if (!scId) { setBuiltupDetailLookups([]); return; }";
    "                const ptRes = await api.get(" +:+ Q +:+ "/lookups" +:+ Q +:+ ", { params: { lookup_type: 'PropertyType', parent_lookup_id: scId } });";
    "                setBuiltupDetailLookups((ptRes.data?.data || []).map((pt: any) => ({ label: pt.lookup_value, value: pt.lookup_value, _id: pt._id })));";
    "            } catch (e) { console.error(" +:+ Q +:+ "Builtup Detail fetch failed" +:+ Q +:+ ", e); }";
    "        };";
    "        fetchBuiltupDetail();";
    "    }, [form.subCategory]);";
    "";
    "    useEffect(() => {";
    "        const fetchBT = async () => {";
    "            if (!form.builtupDetail) { setBtLookups([]); return; }";
    "            try {";
    "                const pt = builtupDetailLookups.find(opt => opt.value === form.builtupDetail);";
    "                if (!pt?._id) { setBtLookups([]); return; }";
    "                const btRes = await api.get(" +:+ Q +:+ "/lookups" +:+ Q +:+ ", { params: { lookup_type: 'BuiltupType', parent_lookup_id: pt._id, limit: 1000 } });";
    "                setBtLookups((btRes.data?.data || []).map((bt: any) => ({ label: bt.lookup_value, value: bt.lookup_value })));";
    "            } catch (e) { console.error(" +:+ Q +:+ "BT fetch failed" +:+ Q +:+ ", e); }";
    "        };";
    "        fetchBT();";
    "    }, [form.builtupDetail, builtupDetailLookups]);";
    "";
    "    useEffect(() => {";
    "        const fetchSystemData = async () => {";
    "            try {";
    "                const [pc, mf, pj, sz, tm, ur] = await Promise.all([";
    "                    api.get(" +:+ Q +:+ "/system-settings/property_config" +:+ Q +:+ "),";
    "                    api.get(" +:+ Q +:+ "/system-settings/master_fields" +:+ Q +:+ "),";
    "                    api.get(" +:+ Q +:+ "/projects?limit=100" +:+ Q +:+ "),";
    "                    api.get(" +:+ Q +:+ "/projects/sizes/all?limit=1000" +:+ Q +:+ "), // Assuming this endpoint exists based on AddSizeModal";
    "                    api.get(" +:+ Q +:+ "/lookups?lookup_type=Team&limit=100" +:+ Q +:+ "),";
    "                    api.get(" +:+ Q +:+ "/users?limit=1000" +:+ Q +:+ "),";
    "                ]);";
    "                setPropertyConfig(pc.data?.data || {});";
    "                setMasterFields(mf.data?.data || {});";
    "                setProjects(pj.data?.data || []);";
    "                setSizes(sz.data?.data || []);";
    "                setTeams((tm.data?.data || []).map((t: any) => ({ label: t.lookup_value, value: t._id })));";
    "                setUsers((ur.data?.records || ur.data?.data || []).map((u: any) => ({ label: u.name || u.fullName, value: u._id, team: u.team })));";
    "            } catch (e) { console.error(" +:+ Q +:+ "System data fetch failed" +:+ Q +:+ ", e); }";
    "        };";
    "        fetchSystemData();";
    "    }, []);";
    "";
    "    const handleSave = async () => {";
    "        if (!form.projectName || !form.unitNo || !form.subCategory) {";
    "            Alert.alert(" +:+ Q +:+ "Missing Fields" +:+ Q +:+ ", " +:+ Q +:+ "Please fill in Project, Unit No, and Sub Category." +:+ Q +:+ ");";
    "            return;";
    "        }";
    "        setSaving(true);";
    "        try {";
    "            // Helper to get ID for lookup values";
    "            const findId = (items: any[], val: string) => items.find(i => i.lookup_value === val)?._id || val;";
    "";
    "            const payload = {";
    "                ...form,";
    "                category: findId(masterFields.categories || [], form.category),";
    "                subCategory: findId(masterFields.subCategories || [], form.subCategory),";
    "                // etc. (Add all mapping as per web)";
    "            };";
    "";
    "            const res = await api.post(" +:+ Q +:+ "/inventory" +:+ Q +:+ ", payload);";
    "            if (res.data?.success) {";
    "                Alert.alert(" +:+ Q +:+ "Success" +:+ Q +:+ ", " +:+ Q +:+ "Inventory saved successfully." +:+ Q +:+ ");";
    "                router.replace(" +:+ Q +:+ "/(tabs)/inventory" +:+ Q +:+ ");";
    "            } else {";
    "                throw new Error(res.data?.message || " +:+ Q +:+ "Failed to save" +:+ Q +:+ ");";
    "            }";
    "        } catch (e: any) {";
    "            Alert.alert(" +:+ Q +:+ "Error" +:+ Q +:+ ", e.message || " +:+ Q +:+ "Failed to save inventory." +:+ Q +:+ ");";
    "        } finally {";
    "            setSaving(false);";
    "        }";
    "    };";
    "";
    "    return (";
    "        <SafeAreaView style={styles.container}>";
    "            <KeyboardAvoidingView behavior={Platform.OS === 'ios' ? 'padding' : undefined} style={{ flex: 1 }}>";
    "                <View style={styles.header}>";
    "                    <TouchableOpacity";
    "                        onPress={() => {";
    "                            const isDirty = JSON.stringify(form) !== JSON.stringify(INITIAL);";
    "                            if (isDirty) {";
    "                                Alert.alert(" +:+ Q +:+ "Discard Changes?" +:+ Q +:+ ", " +:+ Q +:+ "You have unsaved changes. Are you sure you want to go back?" +:+ Q +:+ ", [";
    "                                    { text: " +:+ Q +:+ "Keep Editing" +:+ Q +:+ ", style: " +:+ Q +:+ "cancel" +:+ Q +:+ " },";
    "                                    { text: " +:+ Q +:+ "Discard" +:+ Q +:+ ", style: " +:+ Q +:+ "destructive" +:+ Q +:+ ", onPress: () => router.back() }";
    "                                ]);";
    "                            } else {";
    "                                router.back();";
    "                            }";
    "                        }}";
    "                    >";
    "                        <Ionicons name=" +:+ Q +:+ "arrow-back" +:+ Q +:+ " size={24} color=" +:+ Q +:+ "#1E293B" +:+ Q +:+ " />";
    "                    </TouchableOpacity>";
    "                    <Text style={styles.headerTitle}>Add Inventory</Text>";
    "                    <TouchableOpacity onPress={handleSave} disabled={saving}>";
    "                        {saving ? <ActivityIndicator size=" +:+ Q +:+ "small" +:+ Q +:+ " color=" +:+ Q +:+ "#2563EB" +:+ Q +:+ " /> : <Text style={styles.saveHeader}>Save</Text>}";
    "                    </TouchableOpacity>";
    "                </View>";
    "";
    "                <ScrollView style={styles.content} showsVerticalScrollIndicator={false}>";
    "                    <SectionHeader title=" +:+ Q +:+ "Basic Unit Details" +:+ Q +:+ " icon=" +:+ Q +:+ "🏢" +:+ Q +:+ " />";
    "                    <View style={styles.card}>";
    "                        <Field label=" +:+ Q +:+ "Category" +:+ Q +:+ " required>";
    "                            <SelectButton value={form.category} placeholder=" +:+ Q +:+ "Select Category" +:+ Q;
    "                                options={['Residential', 'Commercial', 'Industrial', 'Agricultural', 'Institutional'].map(c => ({ label: c, value: c }))}";
    "                                onSelect={(val) => setForm(f => ({ ...f, category: val, subCategory: " +:+ Q +:+ Q +:+ ", builtupDetail: " +:+ Q +:+ Q +:+ ", builtupType: " +:+ Q +:+ Q +:+ " }))} />";
    "                        </Field>";
    "";
    "                        <Field label=" +:+ Q +:+ "Sub Category" +:+ Q +:+ " required>";
    "                            <SelectButton value={form.subCategory} placeholder=" +:+ Q +:+ "Select Category first" +:+ Q;
    "                                options={(propertyConfig[form.category]?.subCategories || []).map((sc: any) => ({ label: sc.name, value: sc.name }))}";
    "                                onSelect={(val) => setForm(f => ({ ...f, subCategory: val, builtupDetail: " +:+ Q +:+ Q +:+ ", builtupType: " +:+ Q +:+ Q +:+ " }))} />";
    "                        </Field>";
    "";
    "                        <Field label=" +:+ Q +:+ "Project Name" +:+ Q +:+ " required>";
    "                            <TouchableOpacity style={styles.selector} onPress={() => setProjectModalVisible(true)}>";
    "                                <Text style={[styles.selectorText, !form.projectName && { color: " +:+ Q +:+ "#9CA3AF" +:+ Q +:+ " }]}>";
    "                                    {form.projectName || " +:+ Q +:+ "Select Project" +:+ Q +:+ "}";
    "                                </Text>";
    "                                <Ionicons name=" +:+ Q +:+ "chevron-down" +:+ Q +:+ " size={20} color=" +:+ Q +:+ "#64748B" +:+ Q +:+ " />";
    "                            </TouchableOpacity>";
    "                        </Field>";
    "";
    "                        <Field label=" +:+ Q +:+ "Block" +:+ Q +:+ " required>";
    "                            <SelectButton value={form.block} placeholder=" +:+ Q +:+ "Select Project first" +:+ Q;
    "                                options={(projects.find(p => p.name === form.projectName)?.blocks || []).map((b: any) => ({ label: typeof b === 'string' ? b : b.name, value: typeof b === 'string' ? b : b.name }))}";
    "                                onSelect={set(" +:+ Q +:+ "block" +:+ Q +:+ ")} />";
    "                        </Field>";
    "";
    "                        <Field label=" +:+ Q +:+ "Unit No." +:+ Q +:+ " required>";
    "                            <Input value={form.unitNo} onChangeText={set(" +:+ Q +:+ "unitNo" +:+ Q +:+ ")} placeholder=" +:+ Q +:+ "e.g. 101" +:+ Q +:+ " />";
    "                        </Field>";
    "                    </View>";
    "";
    "                    <SectionHeader title=" +:+ Q +:+ "Builtup Details" +:+ Q +:+ " icon=" +:+ Q +:+ "📐" +:+ Q +:+ " />";
    "                    <View style={styles.card}>";
    "                        <Field label=" +:+ Q +:+ "Built-up Detail" +:+ Q +:+ " required>";
    "                            <SelectButton value={form.builtupDetail} placeholder=" +:+ Q +:+ "Select Sub Category first" +:+ Q +:+ " options={builtupDetailLookups}";
    "                                onSelect={(val) => setForm(f => ({ ...f, builtupDetail: val, builtupType: " +:+ Q +:+ Q +:+ " }))} />";
    "                        </Field>";
    "";
    "                        <Field label=" +:+ Q +:+ "Built-up Type" +:+ Q +:+ ">";
    "                            <SelectButton value={form.builtupType} placeholder=" +:+ Q +:+ "Select Built-up Detail first" +:+ Q +:+ " options={btLookups} onSelect={set(" +:+ Q +:+ "builtupType" +:+ Q +:+ ")} />";
    "                        </Field>";
    "                    </View>";
    "";
    "                    {/* Additional sections would go here... */}";
    "";
    "                    <View style={styles.footer}>";
    "                        <TouchableOpacity style={styles.saveBtn} onPress={handleSave} disabled={saving}>";
    "                            {saving ? <ActivityIndicator color=" +:+ Q +:+ "#fff" +:+ Q +:+ " /> : <Text style={styles.saveBtnText}>Save Inventory</Text>}";
    "                        </TouchableOpacity>";
    "                    </View>";
    "                </ScrollView>";
    "";
    "                <SearchableDropdown";
    "                    visible={projectModalVisible}";
    "                    onClose={() => setProjectModalVisible(false)}";
    "                    options={projects.map(p => ({ label: p.name, value: p.name }))}";
    "                    placeholder=" +:+ Q +:+ "Search Project" +:+ Q;
    "                    onSelect={(val) => setForm(f => ({ ...f, projectName: val, projectId: projects.find(p => p.name === val)?._id || " +:+ Q +:+ Q +:+ ", block: " +:+ Q +:+ Q +:+ ", size: " +:+ Q +:+ Q +:+ " }))}";
    "                />";
    "            </KeyboardAvoidingView>";
    "        </SafeAreaView>";
    "    );";
    "}";
    "";
    "const styles = StyleSheet.create({";
    "    container: { flex: 1, backgroundColor: " +:+ Q +:+ "#F8FAFC" +:+ Q +:+ " },";
    "    header: { flexDirection: " +:+ Q +:+ "row" +:+ Q +:+ ", alignItems: " +:+ Q +:+ "center" +:+ Q +:+ ", justifyContent: " +:+ Q +:+ "space-between" +:+ Q +:+ ", padding: 16, backgroundColor: " +:+ Q +:+ "#fff" +:+ Q +:+ ", borderBottomWidth: 1, borderBottomColor: " +:+ Q +:+ "#E2E8F0" +:+ Q +:+ " },";
    "    headerTitle: { fontSize: 18, fontWeight: " +:+ Q +:+ "700" +:+ Q +:+ ", color: " +:+ Q +:+ "#1E293B" +:+ Q +:+ " },";
    "    saveHeader: { fontSize: 16, fontWeight: " +:+ Q +:+ "600" +:+ Q +:+ ", color: " +:+ Q +:+ "#2563EB" +:+ Q +:+ " },";
    "    content: { flex: 1, padding: 16 },";
    "    sectionHeader: { flexDirection: " +:+ Q +:+ "row" +:+ Q +:+ ", alignItems: " +:+ Q +:+ "center" +:+ Q +:+ ", marginTop: 24, marginBottom: 12 },";
    "    sectionIcon: { fontSize: 20, marginRight: 8 },";
    "    sectionTitle: { fontSize: 16, fontWeight: " +:+ Q +:+ "700" +:+ Q +:+ ", color: " +:+ Q +:+ "#1E293B" +:+ Q +:+ " },";
    "    card: { backgroundColor: " +:+ Q +:+ "#fff" +:+ Q +:+ ", borderRadius: 12, padding: 16, borderWidth: 1, borderColor: " +:+ Q +:+ "#E2E8F0" +:+ Q +:+ " },";
    "    field: { marginBottom: 16 },";
    "    fieldLabel: { fontSize: 14, fontWeight: " +:+ Q +:+ "600" +:+ Q +:+ ", color: " +:+ Q +:+ "#475569" +:+ Q +:+ ", marginBottom: 8 },";
    "    required: { color: " +:+ Q +:+ "#EF4444" +:+ Q +:+ " },";
    "    input: { height: 44, borderWidth: 1, borderColor: " +:+ Q +:+ "#E2E8F0" +:+ Q +:+ ", borderRadius: 8, paddingHorizontal: 12, fontSize: 15, color: " +:+ Q +:+ "#1E293B" +:+ Q +:+ " },";
    "    selector: { height: 44, borderWidth: 1, borderColor: " +:+ Q +:+ "#E2E8F0" +:+ Q +:+ ", borderRadius: 8, paddingHorizontal: 12, flexDirection: " +:+ Q +:+ "row" +:+ Q +:+ ", alignItems: " +:+ Q +:+ "center" +:+ Q +:+ ", justifyContent: " +:+ Q +:+ "space-between" +:+ Q +:+ " },";
    "    selectorText: { fontSize: 15, color: " +:+ Q +:+ "#1E293B" +:+ Q +:+ " },";
    "    chipRow: { flexDirection: " +:+ Q +:+ "row" +:+ Q +:+ " },";
    "    chip: { paddingHorizontal: 16, paddingVertical: 8, borderRadius: 20, backgroundColor: " +:+ Q +:+ "#F1F5F9" +:+ Q +:+ ", marginRight: 8, marginBottom: 8, borderWidth: 1, borderColor: " +:+ Q +:+ "#E2E8F0" +:+ Q +:+ " },";
    "    chipSelected: { backgroundColor: " +:+ Q +:+ "#EFF6FF" +:+ Q +:+ ", borderColor: " +:+ Q +:+ "#3B82F6" +:+ Q +:+ " },";
    "    chipText: { fontSize: 13, fontWeight: " +:+ Q +:+ "500" +:+ Q +:+ ", color: " +:+ Q +:+ "#64748B" +:+ Q +:+ " },";
    "    chipTextSelected: { color: " +:+ Q +:+ "#2563EB" +:+ Q +:+ " },";
    "    footer: { marginTop: 32, marginBottom: 64 },";
    "    saveBtn: { backgroundColor: " +:+ Q +:+ "#2563EB" +:+ Q +:+ ", height: 50, borderRadius: 12, justifyContent: " +:+ Q +:+ "center" +:+ Q +:+ ", alignItems: " +:+ Q +:+ "center" +:+ Q +:+ " },";
    "    saveBtnText: { color: " +:+ Q +:+ "#fff" +:+ Q +:+ ", fontSize: 16, fontWeight: " +:+ Q +:+ "700" +:+ Q +:+ " },";
    "    modalOverlay: { flex: 1, backgroundColor: " +:+ Q +:+ "rgba(0,0,0,0.5)" +:+ Q +:+ ", justifyContent: " +:+ Q +:+ "flex-end" +:+ Q +:+ " },";
    "    modalContent: { backgroundColor: " +:+ Q +:+ "#fff" +:+ Q +:+ ", borderTopLeftRadius: 20, borderTopRightRadius: 20, height: " +:+ Q +:+ "80%" +:+ Q +:+ ", padding: 20 },";
    "    modalHeader: { flexDirection: " +:+ Q +:+ "row" +:+ Q +:+ ", alignItems: " +:+ Q +:+ "center" +:+ Q +:+ ", justifyContent: " +:+ Q +:+ "space-between" +:+ Q +:+ ", marginBottom: 20 },";
    "    modalTitle: { fontSize: 18, fontWeight: " +:+ Q +:+ "700" +:+ Q +:+ ", color: " +:+ Q +:+ "#1E293B" +:+ Q +:+ " },";
    "    modalSearchInput: { height: 44, backgroundColor: " +:+ Q +:+ "#F1F5F9" +:+ Q +:+ ", borderRadius: 10, paddingHorizontal: 16, marginBottom: 16 },";
    "    modalListItem: { paddingVertical: 14, borderBottomWidth: 1, borderBottomColor: " +:+ Q +:+ "#F1F5F9" +:+ Q +:+ " },";
    "    modalListItemText: { fontSize: 16, color: " +:+ Q +:+ "#1E293B" +:+ Q +:+ " },";
    "    modalEmptyText: { textAlign: " +:+ Q +:+ "center" +:+ Q +:+ ", color: " +:+ Q +:+ "#64748B" +:+ Q +:+ ", marginTop: 40 },";
    "});";
    Q +:+ Q +:+ Q;
    "";
    "with open(filepath, " +:+ Q +:+ "w" +:+ Q +:+ ") as f:";
    "    f.write(code)";
    "print(" +:+ Q +:+ "Successfully reconstructed the file." +:+ Q +:+ ")"
  ].

(** The literal assigned to [code]; it runs to the closing triple quote
    of line 517 and so takes in the escaped triple quote and the three
    statements that follow it. *)
Definition code : string := text_block code_text.

(** The statements after the literal: one [open], one [write]. *)
Definition main : io unit :=
  _ ← open_write filepath;
  write filepath code.

End ReconstructInventory.

(** ** Vocabulary of the properties *)

Module Doc.
Import FixBuiltup.

(** The line contains the start marker. *)
Definition has_marker (l : string) : Prop := str_in start_marker l = true.
Definition marker_free (l : string) : Prop := str_in start_marker l = false.

(** The loop's end-of-region test, as the loop evaluates it on the
    document [lines], holds of [l] / fails of [l] without raising. *)
Definition ends_region (lines : list string) (l : string) : Prop :=
  is_region_end lines l = Ok true.
Definition keeps_skipping (lines : list string) (l : string) : Prop :=
  is_region_end lines l = Ok false.

(** How many elements of the output are the payload, and how many lines
    of a document contain the start marker. *)
Definition payload_insertions (out : list string) : nat :=
  length (List.filter (String.eqb new_code) out).
Definition marker_lines (lines : list string) : nat :=
  length (List.filter (str_in start_marker) lines).

(** The end-of-region condition in the words of the specification
    (section 4.1, [is_region_end : predicate(line, next_line)]): the
    candidate opens an effect and the line after it is the named
    continuation.  It is written from the specification, to be compared
    with [is_region_end], which is the test of the source. *)
Definition is_region_end_spec (line next : string) : bool :=
  str_in "useEffect(() => {" line && str_in "fetchSystemData" next.

(** The condition of the specification at position [i] of a document. *)
Definition boundary_at (lines : list string) (i : nat) : bool :=
  match lines !! i, lines !! (i + 1) with
  | Some line, Some next => is_region_end_spec line next
  | _, _ => false
  end.

(** The lines of a document that open an effect. *)
Definition effect_lines (lines : list string) : list string :=
  List.filter (str_in "useEffect(() => {") lines.

(** The content of the target file in a world. *)
Definition target (w : world) : option string := files w !! filepath.

(** Lines used in the sample documents. *)
Definition nl : string := String LF EmptyString.
Definition marker_line : string := "    " +:+ start_marker +:+ nl.
Definition effect_line : string := "    useEffect(() => {" +:+ nl.
Definition system_line : string :=
  "        const fetchSystemData = async () => {" +:+ nl.

(** A well-formed document: marker, two old lines, the boundary and a
    tail. *)
Definition doc_plain : string :=
  join [marker_line; "old 1" +:+ nl; "old 2" +:+ nl;
        effect_line; system_line; "tail" +:+ nl].

(** The marker on two lines, the second one after the region has
    ended. *)
Definition doc_two_markers : string :=
  join [marker_line; "old" +:+ nl; effect_line; system_line;
        "kept" +:+ nl; marker_line; "after" +:+ nl].

(** The marker on two lines and no boundary anywhere. *)
Definition doc_two_markers_open : string :=
  join [marker_line; "a" +:+ nl; marker_line; "b" +:+ nl].

(** The last line opens an effect and nothing follows it. *)
Definition doc_effect_last : string :=
  join [marker_line; "old" +:+ nl; "    useEffect(() => {"].

(** The boundary line also occurs before the marker. *)
Definition doc_effect_twice : string :=
  join [effect_line; "        const first = 1;" +:+ nl; marker_line;
        "old" +:+ nl; effect_line; system_line; "tail" +:+ nl].

(** The same document with another first line. *)
Definition doc_effect_once : string :=
  join ["    const zero = 0;" +:+ nl; "        const first = 1;" +:+ nl;
        marker_line; "old" +:+ nl; effect_line; system_line; "tail" +:+ nl].

(** What the run leaves in the file when it starts from [doc_plain]. *)
Definition doc_plain_once : string :=
  join [marker_line; new_code; effect_line; system_line; "tail" +:+ nl].

(** No marker at all. *)
Definition doc_no_marker : string :=
  join ["first" +:+ nl; effect_line; system_line; "last"].

(** The marker and nothing that ends the region. *)
Definition doc_open : string :=
  join ["head" +:+ nl; marker_line; "old 1" +:+ nl; "old 2" +:+ nl].

(** Line endings CR LF and CR; the marker found, no boundary. *)
Definition doc_crlf : string :=
  join ["head"; String CR nl; "    "; start_marker; String CR nl;
        "old"; String CR EmptyString; "tail"].

(** The marker on the last line, which has no line terminator. *)
Definition doc_marker_last : string :=
  join ["head" +:+ nl; "    "; start_marker].

(** The elements of an output that are not the payload. *)
Definition copied (out : list string) : list string :=
  List.filter (fun l => negb (String.eqb new_code l)) out.

Definition world_of (content : string) : world :=
  World {[ filepath := content ]} [].

(** A world with a second file beside the target. *)
Definition other_path : string := "/tmp/notes.txt".
Definition world_beside (content : string) : world :=
  World (<[other_path := "keep"]> {[ filepath := content ]}) [].

End Doc.

Import FixBuiltup Doc.

(** ** Strings and lists *)

(** [append] does not unfold under [simpl]; its two equations. *)
Lemma append_nil_l (b : string) : EmptyString +:+ b = b.
Proof. reflexivity. Qed.

Lemma append_cons (x : ascii) (a b : string) :
  String x a +:+ b = String x (a +:+ b).
Proof. reflexivity. Qed.

Lemma append_assoc (a b c : string) : (a +:+ b) +:+ c = a +:+ (b +:+ c).
Proof.
  induction a as [|x a IH]; [reflexivity|].
  now rewrite !append_cons, IH.
Qed.

Lemma append_empty_r (a : string) : a +:+ EmptyString = a.
Proof.
  induction a as [|x a IH]; [reflexivity|].
  now rewrite append_cons, IH.
Qed.

Lemma join_app (xs ys : list string) : join (xs ++ ys) = join xs +:+ join ys.
Proof.
  induction xs as [|x xs IH]; cbn [join app]; [reflexivity|].
  now rewrite IH, append_assoc.
Qed.

Lemma splitlines_one_line (s : string) :
  Forall (fun l => one_line l = true) (splitlines_keepends s).
Proof.
  induction s as [|c s IH]; simpl; [constructor|].
  destruct (Ascii.eqb c LF) eqn:Hc.
  - constructor; [simpl; now rewrite Hc | exact IH].
  - destruct (splitlines_keepends s) as [|l ls].
    + constructor; [simpl; now rewrite Hc | constructor].
    + inversion IH; subst. constructor; [simpl; now rewrite Hc | assumption].
Qed.

Lemma readlines_one_line (c l : string) : l ∈ readlines c -> one_line l = true.
Proof.
  intros Hin. unfold readlines in Hin.
  pose proof (splitlines_one_line (universal_newlines c)) as H.
  rewrite Forall_forall in H. now apply H.
Qed.

Lemma new_code_not_one_line : one_line new_code = false.
Proof. vm_compute. reflexivity. Qed.

Lemma readlines_not_payload (c l : string) : l ∈ readlines c -> l <> new_code.
Proof.
  intros Hin ->. apply readlines_one_line in Hin.
  rewrite new_code_not_one_line in Hin. discriminate.
Qed.

(** [lines.index(line)] finds a position no later than any position at
    which [line] stands. *)
Lemma list_index_first (lines : list string) (i : nat) (l : string) :
  lines !! i = Some l ->
  exists j, list_index l lines = Ok j /\ j <= i /\ lines !! j = Some l.
Proof.
  revert i. induction lines as [|y lines IH]; intros i Hi; [discriminate|].
  simpl. destruct (String.eqb_spec y l) as [->|Hne].
  - exists 0. split; [reflexivity | split; [lia | reflexivity]].
  - destruct i as [|i]; [simpl in Hi; congruence|].
    destruct (IH i Hi) as (j & Hj & Hle & Hlk).
    exists (S j). rewrite Hj. split; [reflexivity | split; [lia | exact Hlk]].
Qed.

(** The end-of-region test cannot raise on a line that has a successor. *)
Lemma is_region_end_defined (lines : list string) (i : nat) (l : string) :
  lines !! i = Some l -> S i < length lines ->
  exists b, is_region_end lines l = Ok b.
Proof.
  intros Hi Hlen. unfold is_region_end.
  destruct (str_in "useEffect(() => {" l); [|eexists; reflexivity].
  destruct (list_index_first _ _ _ Hi) as (j & -> & Hle & _).
  cbn. unfold getitem.
  destruct (lookup_lt_is_Some_2 lines (j + 1)) as [x ->]; [lia|].
  eexists; reflexivity.
Qed.

(** ** The loop, one iteration at a time *)

Section Loop.
Variable lines : list string.

Lemma step_marker (st : scan_state) (l : string) :
  has_marker l ->
  step lines st l = Ok (ScanState (new_lines st ++ [l; new_code]) true true).
Proof. unfold has_marker, step. now intros ->. Qed.

Lemma step_copy (st : scan_state) (l : string) :
  marker_free l -> skip st = false ->
  step lines st l = Ok (ScanState (new_lines st ++ [l]) false (found_marker st)).
Proof. unfold marker_free, step. now intros -> ->. Qed.

Lemma step_skip (st : scan_state) (l : string) :
  marker_free l -> skip st = true -> keeps_skipping lines l ->
  step lines st l = Ok (ScanState (new_lines st) true (found_marker st)).
Proof. unfold marker_free, keeps_skipping, step. now intros -> -> ->. Qed.

Lemma step_end (st : scan_state) (l : string) :
  marker_free l -> skip st = true -> ends_region lines l ->
  step lines st l = Ok (ScanState (new_lines st ++ [l]) false (found_marker st)).
Proof. unfold marker_free, ends_region, step. now intros -> -> ->. Qed.

Lemma loop_app (a b : list string) (st : scan_state) :
  loop lines st (a ++ b) = loop lines st a ≫= fun st' => loop lines st' b.
Proof.
  revert st. induction a as [|l a IH]; intros st; [reflexivity|].
  cbn [app loop]. destruct (step lines st l) as [st'|e]; [apply IH | reflexivity].
Qed.

Lemma loop_cons (l : string) (b : list string) (st : scan_state) :
  loop lines st (l :: b) = step lines st l ≫= fun st' => loop lines st' b.
Proof. reflexivity. Qed.

(** In copying mode, lines without the marker are copied through. *)
Lemma loop_copy (ls : list string) (st : scan_state) :
  Forall marker_free ls -> skip st = false ->
  loop lines st ls = Ok (ScanState (new_lines st ++ ls) false (found_marker st)).
Proof.
  intros Hfree. revert st.
  induction Hfree as [|l ls Hl _ IH]; intros st Hskip.
  - destruct st as [out sk fm]; simpl in *; subst sk.
    now rewrite app_nil_r.
  - rewrite loop_cons, (step_copy st l Hl Hskip). cbn.
    rewrite IH by reflexivity. cbn. now rewrite <- app_assoc.
Qed.

(** In skipping mode, lines on which the test is false are dropped. *)
Lemma loop_skip (ls : list string) (st : scan_state) :
  Forall marker_free ls -> Forall (keeps_skipping lines) ls -> skip st = true ->
  loop lines st ls = Ok (ScanState (new_lines st) true (found_marker st)).
Proof.
  intros Hfree. revert st.
  induction Hfree as [|l ls Hl _ IH]; intros st Hkeep Hskip.
  - destruct st as [out sk fm]; simpl in *; now subst sk.
  - inversion Hkeep as [|? ? Hk Hks]; subst.
    rewrite loop_cons, (step_skip st l Hl Hskip Hk). cbn.
    now rewrite IH.
Qed.

(** The output only ever grows at its end. *)
Lemma step_grows (st st' : scan_state) (l : string) :
  step lines st l = Ok st' -> new_lines st `prefix_of` new_lines st'.
Proof.
  unfold step. destruct (str_in start_marker l).
  - intros [= <-]. cbn. now apply prefix_app_r.
  - destruct (if skip st then is_region_end lines l else Ok false) as [stop|e];
      cbn; [|discriminate].
    intros [= <-]. cbn.
    destruct (if stop then false else skip st); [reflexivity|].
    now apply prefix_app_r.
Qed.

Lemma loop_grows (todo : list string) (st st' : scan_state) :
  loop lines st todo = Ok st' -> new_lines st `prefix_of` new_lines st'.
Proof.
  revert st. induction todo as [|l todo IH]; intros st.
  - now intros [= <-].
  - rewrite loop_cons. destruct (step lines st l) as [st1|e] eqn:Hstep;
      cbn; [|discriminate].
    intros Hloop. etransitivity; [eapply step_grows, Hstep | eapply IH, Hloop].
Qed.

End Loop.

(** ** The run as a whole *)

Lemma writelines_appends (path : string) (ls : list string) (w : world) (acc : string) :
  files w !! path = Some acc ->
  writelines path ls w =
    (World (<[path := acc +:+ join ls]> (files w))
           (trace w ++ map (EvWrite path) ls), Ok tt).
Proof.
  revert w acc. induction ls as [|l ls IH]; intros [fs tr] acc Hacc; cbn in *.
  - rewrite append_empty_r, app_nil_r, insert_id by exact Hacc. reflexivity.
  - unfold mbind, io_bind, write. cbn.
    erewrite IH; cbn.
    + rewrite insert_alter_eq, append_assoc, <- app_assoc. reflexivity.
    + rewrite lookup_alter_eq, Hacc. reflexivity.
Qed.

(** What [fix_builtup.py] does, in terms of the result of its loop. *)
Lemma main_by_scan (w : world) (c : string) :
  files w !! filepath = Some c ->
  main w =
    match scan (readlines c) with
    | Ok st =>
        if found_marker st then
          (World (<[filepath := join (new_lines st)]> (files w))
                 (trace w ++ [EvOpenRead filepath; EvOpenWrite filepath]
                          ++ map (EvWrite filepath) (new_lines st)
                          ++ [EvPrint msg_updated]), Ok tt)
        else
          (World (files w)
                 (trace w ++ [EvOpenRead filepath; EvPrint msg_not_found]), Ok tt)
    | Raise e => (World (files w) (trace w ++ [EvOpenRead filepath]), Raise e)
    end.
Proof.
  intros Hc. unfold main, mbind, io_bind, open_read at 1. rewrite Hc.
  unfold lift. destruct (scan (readlines c)) as [st|e]; [|reflexivity].
  destruct (found_marker st).
  - unfold open_write at 1. cbn [log files trace].
    erewrite writelines_appends by apply lookup_insert_eq.
    unfold print, log. cbn [files trace].
    rewrite insert_insert_eq, append_nil_l, <- !app_assoc. reflexivity.
  - unfold print, log. cbn [files trace]. now rewrite <- app_assoc.
Qed.

Lemma main_no_file (w : world) :
  files w !! filepath = None -> main w = (w, Raise FileNotFoundError).
Proof.
  intros Hc. unfold main, mbind, io_bind, open_read at 1. now rewrite Hc.
Qed.

Lemma bind_ok {A B : Type} (a : A) (f : A -> result B) : Ok a ≫= f = f a.
Proof. reflexivity. Qed.

Lemma bind_raise {A B : Type} (e : exn) (f : A -> result B) :
  Raise e ≫= f = Raise e.
Proof. reflexivity. Qed.

(** Side conditions of the iteration lemmas, and the move to the next
    line of the document. *)
Ltac side := solve [assumption | reflexivity].
Ltac next_line := rewrite ?bind_ok; cbv beta; rewrite ?loop_cons.

(** Two closed values are different: by evaluation of the decision
    procedure for their equality. *)
Ltac differ := apply (bool_decide_eq_false_1 (_ = _)); vm_compute; reflexivity.

(** The test is defined (false or true, no exception) on every line that
    is not the last one of the document. *)
Lemma region_end_defined_inner (a rest : list string) (l : string) :
  rest <> [] -> exists bl, is_region_end (a ++ l :: rest) l = Ok bl.
Proof.
  intros Hrest. apply (is_region_end_defined _ (length a)).
  - now apply list_lookup_middle.
  - rewrite length_app. cbn [length]. destruct rest; [congruence | cbn; lia].
Qed.

Lemma keeps_skipping_inner (lines pre mid : list string) (m b : string)
    (post : list string) :
  lines = pre ++ m :: mid ++ b :: post ->
  Forall (fun l => ~ ends_region lines l) mid ->
  Forall (keeps_skipping lines) mid.
Proof.
  intros Hlines Hnot. rewrite Forall_forall in *. intros l Hl.
  destruct (list_elem_of_split _ _ Hl) as (m1 & m2 & ->).
  destruct (region_end_defined_inner (pre ++ m :: m1) (m2 ++ b :: post) l)
    as [bl Hbl]; [now destruct m2|].
  replace ((pre ++ m :: m1) ++ l :: m2 ++ b :: post) with lines in Hbl.
  - destruct bl; [|exact Hbl]. now destruct (Hnot l Hl).
  - rewrite Hlines, <- !app_assoc. reflexivity.
Qed.

(** The loop on a document with one marker line and a boundary after it. *)
Lemma scan_splice (lines pre mid post : list string) (m b : string) :
  lines = pre ++ m :: mid ++ b :: post ->
  has_marker m ->
  Forall marker_free (pre ++ mid ++ b :: post) ->
  Forall (fun l => ~ ends_region lines l) mid ->
  ends_region lines b ->
  scan lines = Ok (ScanState (pre ++ [m; new_code] ++ b :: post) false true).
Proof.
  intros Hlines Hm Hfree Hnot Hb.
  apply Forall_app in Hfree as [Hpre Hfree].
  apply Forall_app in Hfree as [Hmid Hfree].
  apply Forall_cons in Hfree as [Hbfree Hpost].
  pose proof (keeps_skipping_inner _ _ _ _ _ _ Hlines Hnot) as Hkeep.
  unfold scan. transitivity (loop lines initial (pre ++ m :: mid ++ b :: post));
    [now rewrite <- Hlines|].
  rewrite loop_app, (loop_copy lines pre) by side.
  next_line. rewrite step_marker by side.
  next_line. rewrite loop_app, (loop_skip lines mid) by side.
  next_line. rewrite step_end by side.
  next_line. rewrite loop_copy by side.
  cbn [new_lines found_marker initial app]. now rewrite <- !app_assoc.
Qed.

(** ** The properties *)

(** The splice under the test of the loop itself.  When exactly one line
    of the document contains the start marker and [b] is the first later
    line on which [is_region_end], evaluated on the whole document, is
    true, the loop's output is the lines before the marker line, the
    marker line, the payload, and the lines from [b] on; the run writes
    their concatenation to the file and reports success. *)
Lemma splice_under_loop_test (w : world) (c : string) (pre mid post : list string)
    (m b : string) :
  files w !! filepath = Some c ->
  readlines c = pre ++ m :: mid ++ b :: post ->
  has_marker m ->
  Forall marker_free (pre ++ mid ++ b :: post) ->
  Forall (fun l => ~ ends_region (readlines c) l) mid ->
  ends_region (readlines c) b ->
  scan (readlines c) = Ok (ScanState (pre ++ [m; new_code] ++ b :: post) false true) /\
  main w =
    (World (<[filepath := join pre +:+ m +:+ new_code +:+ join (b :: post)]> (files w))
           (trace w ++ [EvOpenRead filepath; EvOpenWrite filepath]
                    ++ map (EvWrite filepath) (pre ++ [m; new_code] ++ b :: post)
                    ++ [EvPrint msg_updated]), Ok tt).
Proof.
  intros Hc Hlines Hm Hfree Hnot Hb.
  pose proof (scan_splice _ _ _ _ _ _ Hlines Hm Hfree Hnot Hb) as Hscan.
  split; [exact Hscan|].
  rewrite (main_by_scan w c Hc), Hscan. cbn [found_marker new_lines].
  rewrite join_app. reflexivity.
Qed.

Lemma scan_no_marker (lines : list string) :
  Forall marker_free lines -> scan lines = Ok (ScanState lines false false).
Proof. intros Hfree. unfold scan. now rewrite loop_copy by side. Qed.

(** C3 (not-found identity).  When no line of the document contains the
    start marker, the run ends normally with the file store unchanged; the
    events it adds contain no opening for writing and no write, and print
    the not-found message and nothing else. *)
Theorem not_found_identity (w : world) (c : string) :
  files w !! filepath = Some c ->
  Forall marker_free (readlines c) ->
  exists added,
    main w = (World (files w) (trace w ++ added), Ok tt) /\
    List.filter is_write added = [] /\
    printed added = [msg_not_found].
Proof.
  intros Hc Hfree. exists [EvOpenRead filepath; EvPrint msg_not_found].
  rewrite (main_by_scan w c Hc), (scan_no_marker _ Hfree).
  repeat split.
Qed.

Lemma not_found_identity_witness :
  exists added,
    main (world_of doc_no_marker)
    = (World (files (world_of doc_no_marker))
             (trace (world_of doc_no_marker) ++ added), Ok tt) /\
    List.filter is_write added = [] /\
    printed added = [msg_not_found].
Proof.
  apply (not_found_identity (world_of doc_no_marker) doc_no_marker).
  - reflexivity.
  - vm_compute. repeat constructor.
Defined.

(** C10 (prefix preservation).  Whenever the run ends normally, every
    marker-free initial segment of the document, hence the lines before
    the first marker line, is a prefix of the loop's output; when the
    marker was found the file written starts with those lines. *)
Theorem prefix_preserved (w w' : world) (c : string) (pre rest : list string) :
  files w !! filepath = Some c ->
  readlines c = pre ++ rest ->
  Forall marker_free pre ->
  main w = (w', Ok tt) ->
  exists st,
    scan (readlines c) = Ok st /\
    pre `prefix_of` new_lines st /\
    (found_marker st = true ->
     exists tail, files w' !! filepath = Some (join pre +:+ tail)).
Proof.
  intros Hc Hlines Hpre Hmain.
  rewrite (main_by_scan w c Hc) in Hmain.
  destruct (scan (readlines c)) as [st|e] eqn:Hscan; [|discriminate].
  exists st. split; [reflexivity|].
  assert (pre `prefix_of` new_lines st) as Hprefix.
  { unfold scan in Hscan. rewrite Hlines in Hscan at 2.
    rewrite loop_app, (loop_copy _ pre) in Hscan by side.
    rewrite bind_ok in Hscan. apply loop_grows in Hscan. exact Hscan. }
  split; [exact Hprefix|].
  intros Hfound. rewrite Hfound in Hmain. injection Hmain as <-.
  destruct Hprefix as [k ->]. exists (join k).
  cbn [files]. now rewrite lookup_insert_eq, join_app.
Qed.

Lemma prefix_preserved_witness :
  exists st,
    scan (readlines doc_open) = Ok st /\
    ["head" +:+ nl] `prefix_of` new_lines st /\
    (found_marker st = true ->
     exists tail,
       files (main (world_of doc_open)).1 !! filepath
       = Some (join ["head" +:+ nl] +:+ tail)).
Proof.
  apply (prefix_preserved (world_of doc_open) _ doc_open ["head" +:+ nl]
           [marker_line; "old 1" +:+ nl; "old 2" +:+ nl]).
  - reflexivity.
  - vm_compute. reflexivity.
  - repeat constructor.
  - vm_compute. reflexivity.
Defined.

(** The loop on a document with one marker line and nothing that ends the
    region after it. *)
Lemma scan_unterminated (lines pre rest : list string) (m : string) :
  lines = pre ++ m :: rest ->
  has_marker m ->
  Forall marker_free (pre ++ rest) ->
  Forall (keeps_skipping lines) rest ->
  scan lines = Ok (ScanState (pre ++ [m; new_code]) true true).
Proof.
  intros Hlines Hm Hfree Hkeep.
  apply Forall_app in Hfree as [Hpre Hrest].
  unfold scan. transitivity (loop lines initial (pre ++ m :: rest));
    [now rewrite <- Hlines|].
  rewrite loop_app, (loop_copy lines pre) by side.
  next_line. rewrite step_marker by side.
  next_line. rewrite loop_skip by side.
  reflexivity.
Qed.




(** ** Counting the insertions *)

Lemma payload_insertions_app (xs ys : list string) :
  payload_insertions (xs ++ ys) = payload_insertions xs + payload_insertions ys.
Proof. unfold payload_insertions. now rewrite List.filter_app, length_app. Qed.

Lemma payload_insertions_other (l : string) :
  l <> new_code -> payload_insertions [l] = 0.
Proof.
  intros Hl. unfold payload_insertions. cbn [List.filter].
  assert (String.eqb new_code l = false) as -> by (apply String.eqb_neq; congruence).
  reflexivity.
Qed.

Lemma payload_insertions_payload : payload_insertions [new_code] = 1.
Proof.
  unfold payload_insertions. cbn [List.filter].
  now rewrite String.eqb_refl.
Qed.

Lemma marker_lines_cons (l : string) (ls : list string) :
  marker_lines (l :: ls)
  = (if str_in start_marker l then 1 else 0) + marker_lines ls.
Proof.
  unfold marker_lines. cbn [List.filter].
  now destruct (str_in start_marker l).
Qed.

Lemma step_counts (lines : list string) (st st' : scan_state) (l : string) :
  l <> new_code ->
  step lines st l = Ok st' ->
  payload_insertions (new_lines st')
  = payload_insertions (new_lines st) + (if str_in start_marker l then 1 else 0).
Proof.
  intros Hl. unfold step. destruct (str_in start_marker l).
  - intros [= <-]. cbn [new_lines].
    change [l; new_code] with ([l] ++ [new_code]).
    rewrite !payload_insertions_app, payload_insertions_other by exact Hl.
    now rewrite payload_insertions_payload.
  - destruct (if skip st then is_region_end lines l else Ok false) as [stop|e];
      [rewrite bind_ok | discriminate].
    intros [= <-]. cbn [new_lines].
    destruct (if stop then false else skip st); [lia|].
    rewrite payload_insertions_app, payload_insertions_other by exact Hl. lia.
Qed.

Lemma loop_counts (lines todo : list string) (st st' : scan_state) :
  Forall (fun l => l <> new_code) todo ->
  loop lines st todo = Ok st' ->
  payload_insertions (new_lines st')
  = payload_insertions (new_lines st) + marker_lines todo.
Proof.
  intros Hne. revert st. induction Hne as [|l todo Hl _ IH]; intros st.
  - intros [= <-]. unfold marker_lines. cbn. lia.
  - rewrite loop_cons. destruct (step lines st l) as [st1|e] eqn:Hstep;
      [rewrite bind_ok | discriminate].
    intros Hloop. rewrite (IH _ Hloop), (step_counts _ _ _ _ Hl Hstep).
    rewrite marker_lines_cons. lia.
Qed.

(** Every marker line that the loop reaches is followed by the payload in
    the output. *)
Lemma loop_marker_followed (lines todo : list string) (st st' : scan_state)
    (m : string) :
  loop lines st todo = Ok st' -> m ∈ todo -> has_marker m ->
  exists l1 l2, new_lines st' = l1 ++ m :: new_code :: l2.
Proof.
  intros Hloop Hin Hm. revert st Hloop.
  induction Hin as [m todo|m l todo _ IH]; intros st; rewrite loop_cons.
  - rewrite step_marker by exact Hm. rewrite bind_ok.
    intros Hloop. apply loop_grows in Hloop as [k Hk]. cbn [new_lines] in Hk.
    exists (new_lines st), k. now rewrite Hk, <- app_assoc.
  - destruct (step lines st l) as [st1|e]; [rewrite bind_ok | discriminate].
    now apply IH.
Qed.

(** C5, as amended (every match counts).  On every document on which the
    loop completes, the payload is inserted once for each line containing
    the start marker, directly after that line; and a marker line sets the
    skipping mode whatever the mode was and whether or not a marker line
    was seen before. *)
Theorem payload_after_every_marker (c : string) (st : scan_state) :
  scan (readlines c) = Ok st ->
  payload_insertions (new_lines st) = marker_lines (readlines c) /\
  (forall m, m ∈ readlines c -> has_marker m ->
     exists l1 l2, new_lines st = l1 ++ m :: new_code :: l2) /\
  (forall st0 m, has_marker m ->
     step (readlines c) st0 m
     = Ok (ScanState (new_lines st0 ++ [m; new_code]) true true)).
Proof.
  intros Hscan. split; [|split].
  - unfold scan in Hscan. apply loop_counts in Hscan; [exact Hscan|].
    apply Forall_forall. intros l Hl. now apply (readlines_not_payload c).
  - intros m Hin Hm. exact (loop_marker_followed _ _ _ _ _ Hscan Hin Hm).
  - intros st0 m Hm. now apply step_marker.
Qed.

Lemma payload_after_every_marker_witness :
  payload_insertions
    [marker_line; new_code; effect_line; system_line; "kept" +:+ nl;
     marker_line; new_code]
  = marker_lines (readlines doc_two_markers) /\
  (forall m, m ∈ readlines doc_two_markers -> has_marker m ->
     exists l1 l2,
       [marker_line; new_code; effect_line; system_line; "kept" +:+ nl;
        marker_line; new_code] = l1 ++ m :: new_code :: l2) /\
  (forall st0 m, has_marker m ->
     step (readlines doc_two_markers) st0 m
     = Ok (ScanState (new_lines st0 ++ [m; new_code]) true true)).
Proof.
  apply (payload_after_every_marker doc_two_markers
           (ScanState [marker_line; new_code; effect_line; system_line;
                       "kept" +:+ nl; marker_line; new_code] true true)).
  vm_compute. reflexivity.
Defined.

(** C5, as stated, fails: with the marker on two lines the payload is
    inserted twice, the second time after the second marker line, which
    also switches skipping on again (the line after it is dropped). *)
Lemma second_marker_inserts_again :
  marker_lines (readlines doc_two_markers) = 2 /\
  scan (readlines doc_two_markers)
  = Ok (ScanState [marker_line; new_code; effect_line; system_line;
                   "kept" +:+ nl; marker_line; new_code] true true) /\
  payload_insertions
    [marker_line; new_code; effect_line; system_line; "kept" +:+ nl;
     marker_line; new_code] <> 1 /\
  loop (readlines doc_two_markers) initial
       [marker_line; "old" +:+ nl; effect_line; system_line; "kept" +:+ nl]
  = Ok (ScanState [marker_line; new_code; effect_line; system_line;
                   "kept" +:+ nl] false true).
Proof.
  split; [vm_compute; reflexivity|].
  split; [vm_compute; reflexivity|].
  split; [vm_compute; discriminate|].
  vm_compute. reflexivity.
Qed.

(** ** Runs that stop with an exception, and repeated runs *)

(** C8 (out-of-range lookahead).  There is a document, whose last line
    opens an effect and occurs nowhere earlier, on which the loop raises
    [IndexError]: the run stops after reading the file, the file store is
    as before, and nothing is printed. *)
Theorem lookahead_out_of_range :
  exists c,
    readlines c = [marker_line; "old" +:+ nl; "    useEffect(() => {"] /\
    list_index "    useEffect(() => {" (readlines c) = Ok 2 /\
    scan (readlines c) = Raise IndexError /\
    forall fs tr,
      main (World (<[filepath := c]> fs) tr)
      = (World (<[filepath := c]> fs) (tr ++ [EvOpenRead filepath]),
         Raise IndexError).
Proof.
  exists doc_effect_last.
  assert (scan (readlines doc_effect_last) = Raise IndexError) as Hscan
    by (vm_compute; reflexivity).
  split; [vm_compute; reflexivity|].
  split; [vm_compute; reflexivity|].
  split; [exact Hscan|].
  intros fs tr.
  rewrite (main_by_scan _ doc_effect_last) by apply lookup_insert_eq.
  now rewrite Hscan.
Qed.

Lemma scan_doc_plain :
  scan (readlines doc_plain)
  = Ok (ScanState [marker_line; new_code; effect_line; system_line; "tail" +:+ nl]
                  false true).
Proof. vm_compute. reflexivity. Qed.

Lemma scan_doc_plain_once :
  scan (readlines doc_plain_once) = Ok (ScanState [marker_line; new_code] true true).
Proof. vm_compute. reflexivity. Qed.

(** C4 (no idempotence).  There is a document with the marker on exactly
    one line and a boundary after it, such that running the script on its
    own output gives a file different from the one the first run wrote.
    The payload contains a line that opens an effect and is equal to the
    boundary line. *)
Theorem not_idempotent :
  exists c pre m mid b post,
    readlines c = pre ++ m :: mid ++ b :: post /\
    has_marker m /\
    Forall marker_free (pre ++ mid ++ b :: post) /\
    Forall (fun l => ~ ends_region (readlines c) l) mid /\
    ends_region (readlines c) b /\
    (b ∈ readlines new_code /\ str_in "useEffect(() => {" b = true) /\
    forall fs tr,
      let once := main (World (<[filepath := c]> fs) tr) in
      let twice := main once.1 in
      once.2 = Ok tt /\ twice.2 = Ok tt /\ target twice.1 <> target once.1.
Proof.
  exists doc_plain, [], marker_line, ["old 1" +:+ nl; "old 2" +:+ nl],
    effect_line, [system_line; "tail" +:+ nl].
  split; [vm_compute; reflexivity|].
  split; [vm_compute; reflexivity|].
  split; [repeat constructor|].
  split; [repeat constructor; vm_compute; discriminate|].
  split; [vm_compute; reflexivity|].
  split.
  { split; [|vm_compute; reflexivity].
    apply list_elem_of_In. vm_compute. left. reflexivity. }
  intros fs tr. cbv zeta.
  rewrite (main_by_scan _ doc_plain) by apply lookup_insert_eq.
  rewrite scan_doc_plain. cbn [found_marker new_lines fst snd files].
  rewrite insert_insert_eq.
  change (join [marker_line; new_code; effect_line; system_line; "tail" +:+ nl])
    with doc_plain_once.
  rewrite (main_by_scan _ doc_plain_once) by apply lookup_insert_eq.
  rewrite scan_doc_plain_once. cbn [found_marker new_lines fst snd files].
  split; [reflexivity|]. split; [reflexivity|].
  unfold target. cbn [files]. rewrite !lookup_insert_eq.
  differ.
Qed.

(** ** The whole-file rewrite *)

Lemma reconstruct_run (w : world) :
  ReconstructInventory.main w =
    (World (<[ReconstructInventory.filepath := ReconstructInventory.code]> (files w))
           (trace w ++ [EvOpenWrite ReconstructInventory.filepath;
                        EvWrite ReconstructInventory.filepath
                                ReconstructInventory.code]), Ok tt).
Proof.
  unfold ReconstructInventory.main, mbind, io_bind, open_write, write.
  cbn [files trace].
  now rewrite alter_insert_eq, append_nil_l, <- app_assoc.
Qed.

(** C6 (full replace).  Whatever the world before, the rewrite ends
    normally and leaves exactly the literal [code] in the target file; the
    content after the run is the same for any two starting worlds. *)
Theorem full_replace_total (w1 w2 : world) :
  (ReconstructInventory.main w1).2 = Ok tt /\
  files (ReconstructInventory.main w1).1 !! ReconstructInventory.filepath
  = Some ReconstructInventory.code /\
  files (ReconstructInventory.main w1).1 !! ReconstructInventory.filepath
  = files (ReconstructInventory.main w2).1 !! ReconstructInventory.filepath.
Proof.
  rewrite !reconstruct_run. cbn [fst snd files].
  rewrite !lookup_insert_eq. repeat split.
Qed.

Lemma printed_app (t1 t2 : list event) : printed (t1 ++ t2) = printed t1 ++ printed t2.
Proof. apply omap_app. Qed.

Lemma printed_writes (path : string) (ls : list string) :
  printed (map (EvWrite path) ls) = [].
Proof. induction ls as [|l ls IH]; [reflexivity | exact IH]. Qed.

(** Every normal end of [fix_builtup.py] prints one of its two messages,
    once. *)
Lemma fix_builtup_one_status_line (w w' : world) :
  main w = (w', Ok tt) ->
  exists msg,
    printed (trace w') = printed (trace w) ++ [msg] /\
    (msg = msg_updated \/ msg = msg_not_found).
Proof.
  intros Hmain. destruct (files w !! filepath) as [c|] eqn:Hc.
  - rewrite (main_by_scan w c Hc) in Hmain.
    destruct (scan (readlines c)) as [st|e]; [|discriminate].
    destruct (found_marker st); injection Hmain as <-;
      match goal with
      | |- context [trace (World ?f ?t)] => change (trace (World f t)) with t
      end.
    + exists msg_updated. split; [|now left].
      rewrite printed_app. f_equal.
      change (printed (map (EvWrite filepath) (new_lines st) ++ [EvPrint msg_updated])
              = [msg_updated]).
      rewrite printed_app, printed_writes. reflexivity.
    + exists msg_not_found. split; [|now right].
      rewrite printed_app. reflexivity.
  - rewrite (main_no_file w Hc) in Hmain. discriminate.
Qed.

(** C7 on [reconstruct_inventory.py]: the run ends normally and prints
    nothing.  The [print] statement is the last line of the text of the
    literal, not a statement of the script. *)
Theorem reconstruct_prints_nothing (w : world) :
  (ReconstructInventory.main w).2 = Ok tt /\
  printed (trace (ReconstructInventory.main w).1) = printed (trace w) /\
  last ReconstructInventory.code_text
  = Some ("print(" +:+ Q +:+ "Successfully reconstructed the file." +:+ Q +:+ ")").
Proof.
  rewrite reconstruct_run. cbn [fst snd trace].
  split; [reflexivity|]. split; [|vm_compute; reflexivity].
  rewrite printed_app. cbn. now rewrite app_nil_r.
Qed.

(** ** The lookahead *)

(** The test reads the successor of the first line equal to the
    candidate. *)
Lemma is_region_end_by_first (lines : list string) (l next : string) (j : nat) :
  str_in "useEffect(() => {" l = true ->
  list_index l lines = Ok j ->
  lines !! (j + 1) = Some next ->
  is_region_end lines l = Ok (str_in "fetchSystemData" next).
Proof.
  intros Hl Hj Hnext. unfold is_region_end. rewrite Hl, Hj, bind_ok.
  unfold getitem. now rewrite Hnext.
Qed.

Lemma list_index_fresh (a rest : list string) (l : string) :
  l ∉ a -> list_index l (a ++ l :: rest) = Ok (length a).
Proof.
  induction a as [|y a IH]; intros Hfresh; cbn [app list_index length].
  - now rewrite String.eqb_refl.
  - apply not_elem_of_cons in Hfresh as [Hne Hfresh].
    assert (String.eqb y l = false) as -> by (apply String.eqb_neq; congruence).
    now rewrite IH.
Qed.

(** On a candidate that does not occur earlier in the document the test
    is the positional one: the candidate opens an effect and the line
    after it mentions [fetchSystemData]. *)
Lemma ends_region_fresh (a rest : list string) (b next : string) :
  b ∉ a ->
  str_in "useEffect(() => {" b = true ->
  str_in "fetchSystemData" next = true ->
  ends_region (a ++ b :: next :: rest) b.
Proof.
  intros Hfresh Hb Hnext. unfold ends_region.
  rewrite (is_region_end_by_first _ b next (length a)), Hnext; trivial.
  - now apply list_index_fresh.
  - replace (length a + 1) with (length (a ++ [b]) + 0)
      by (rewrite length_app; cbn; lia).
    change (b :: next :: rest) with ([b] ++ next :: rest).
    rewrite app_assoc. now rewrite lookup_app_r, Nat.add_comm, Nat.add_sub by lia.
Qed.

(** Two documents with the same candidate and the same successor at the
    same positions, and different decisions. *)
Lemma lookahead_not_positional :
  readlines doc_effect_once !! 4 = Some effect_line /\
  readlines doc_effect_twice !! 4 = Some effect_line /\
  readlines doc_effect_once !! 5 = Some system_line /\
  readlines doc_effect_twice !! 5 = Some system_line /\
  is_region_end (readlines doc_effect_once) effect_line = Ok true /\
  is_region_end (readlines doc_effect_twice) effect_line = Ok false /\
  scan (readlines doc_effect_twice)
  = Ok (ScanState [effect_line; "        const first = 1;" +:+ nl;
                   marker_line; new_code] true true).
Proof. repeat split; vm_compute; reflexivity. Qed.

(** C2 on the file that [reconstruct_inventory.py] writes.  The boundary
    is at lines 328 and 329 of that file (positions 327 and 328), but the
    same text first stands at position 271, and the test reads position
    272: it is false on the boundary, skipping never stops, and
    everything after the marker line (position 299) is dropped. *)
Theorem lookahead_reads_first_occurrence :
  let lines := readlines ReconstructInventory.code in
  lines !! 327 = Some effect_line /\
  lines !! 328 = Some system_line /\
  str_in "fetchSystemData" system_line = true /\
  list_index effect_line lines = Ok 271 /\
  (exists next, lines !! 272 = Some next /\ str_in "fetchSystemData" next = false) /\
  is_region_end lines effect_line = Ok false /\
  scan lines = Ok (ScanState (take 300 lines ++ [new_code]) true true).
Proof.
  cbv zeta.
  split; [vm_compute; reflexivity|].
  split; [vm_compute; reflexivity|].
  split; [vm_compute; reflexivity|].
  split; [vm_compute; reflexivity|].
  split; [eexists; split; vm_compute; reflexivity|].
  split; vm_compute; reflexivity.
Qed.

(** X11 (the two scripts in a row).  [fix_builtup.py] run on the file
    that [reconstruct_inventory.py] has just written, from any world: it
    ends normally, prints the success message and leaves the first 300
    lines and the payload in the file. *)
Lemma fix_after_reconstruct (w : world) :
  let w1 := (ReconstructInventory.main w).1 in
  (main w1).2 = Ok tt /\
  target (main w1).1
  = Some (join (take 300 (readlines ReconstructInventory.code)) +:+ new_code) /\
  printed (trace (main w1).1) = printed (trace w) ++ [msg_updated].
Proof.
  cbv zeta. rewrite reconstruct_run. cbn [fst].
  assert (scan (readlines ReconstructInventory.code)
          = Ok (ScanState (take 300 (readlines ReconstructInventory.code) ++ [new_code])
                          true true)) as Hscan by (vm_compute; reflexivity).
  rewrite (main_by_scan _ ReconstructInventory.code) by apply lookup_insert_eq.
  rewrite Hscan. cbn [found_marker new_lines fst snd files trace].
  unfold target. cbn [files]. rewrite lookup_insert_eq, join_app.
  split; [reflexivity|]. split.
  - cbn [join]. now rewrite append_empty_r.
  - rewrite <- !app_assoc, !printed_app, printed_writes. reflexivity.
Qed.

(** ** Reading and writing back *)

Lemma join_splitlines (s : string) : join (splitlines_keepends s) = s.
Proof.
  induction s as [|c s IH]; [reflexivity|].
  cbn [splitlines_keepends]. destruct (Ascii.eqb c LF).
  - cbn [join]. now rewrite append_cons, append_nil_l, IH.
  - destruct (splitlines_keepends s) as [|l ls].
    + cbn [join] in *. now rewrite append_cons, append_nil_l, <- IH.
    + cbn [join] in *. now rewrite append_cons, IH.
Qed.

(** The lines read, put one after the other, are the content with its
    line endings translated. *)
Lemma join_readlines (c : string) : join (readlines c) = universal_newlines c.
Proof. apply join_splitlines. Qed.

Lemma free_of_append (c : ascii) (a b : string) :
  free_of c (a +:+ b) = free_of c a && free_of c b.
Proof.
  induction a as [|x a IH]; [reflexivity|].
  rewrite append_cons. cbn [free_of]. now rewrite IH, andb_assoc.
Qed.

Lemma free_of_join (c : ascii) (ls : list string) :
  free_of c (join ls) = true <-> Forall (fun l => free_of c l = true) ls.
Proof.
  induction ls as [|l ls IH]; cbn [join].
  - split; [constructor | reflexivity].
  - rewrite free_of_append, andb_true_iff, Forall_cons, IH. reflexivity.
Qed.

Lemma universal_newlines_free_of_cr (s : string) :
  free_of CR (universal_newlines s) = true.
Proof.
  enough (free_of CR (universal_newlines s) = true /\
          forall c, free_of CR (universal_newlines (String c s)) = true) as [H _]
    by exact H.
  induction s as [|d s [IH1 IH2]].
  - split; [reflexivity|]. intros c. cbn [universal_newlines].
    destruct (Ascii.eqb c CR) eqn:Hc; [reflexivity|].
    cbn [free_of]. now rewrite Hc.
  - split; [apply IH2|]. intros c.
    change (universal_newlines (String c (String d s)))
      with (if Ascii.eqb c CR
            then if Ascii.eqb d LF then String LF (universal_newlines s)
                 else String LF (universal_newlines (String d s))
            else String c (universal_newlines (String d s))).
    destruct (Ascii.eqb c CR) eqn:Hc.
    + destruct (Ascii.eqb d LF); cbn [free_of]; [now rewrite IH1 | now rewrite IH2].
    + cbn [free_of]. now rewrite Hc, IH2.
Qed.

Lemma universal_newlines_id (s : string) :
  free_of CR s = true -> universal_newlines s = s.
Proof.
  induction s as [|c s IH]; [reflexivity|].
  cbn [free_of]. rewrite andb_true_iff, negb_true_iff. intros [Hc Hs].
  cbn [universal_newlines]. now rewrite Hc, IH.
Qed.

Lemma readlines_free_of_cr (c : string) :
  Forall (fun l => free_of CR l = true) (readlines c).
Proof.
  apply free_of_join. rewrite join_readlines.
  apply universal_newlines_free_of_cr.
Qed.

Lemma new_code_free_of_cr : free_of CR new_code = true.
Proof. vm_compute. reflexivity. Qed.

(** ** What the loop keeps *)

Section LoopInvariants.
Variable lines : list string.

(** The two ways an iteration can end normally. *)
Lemma step_cases (st st' : scan_state) (l : string) :
  step lines st l = Ok st' ->
  (has_marker l /\ st' = ScanState (new_lines st ++ [l; new_code]) true true) \/
  (marker_free l /\ found_marker st' = found_marker st /\
   ((skip st' = true /\ skip st = true /\ new_lines st' = new_lines st) \/
    (skip st' = false /\ new_lines st' = new_lines st ++ [l]))).
Proof.
  unfold step, has_marker, marker_free.
  destruct (str_in start_marker l).
  - intros [= <-]. now left.
  - destruct (if skip st then is_region_end lines l else Ok false) as [stop|e] eqn:Hstop;
      [rewrite bind_ok | discriminate].
    intros [= <-]. right. split; [reflexivity|]. split; [reflexivity|].
    cbn [skip new_lines]. destruct stop.
    + right. now split.
    + destruct (skip st); [left | right]; now repeat split.
Qed.

(** An iteration raises only through the end-of-region test, and only in
    skipping mode on a line without the marker. *)
Lemma step_raises (st : scan_state) (l : string) (e : exn) :
  step lines st l = Raise e ->
  marker_free l /\ skip st = true /\ is_region_end lines l = Raise e.
Proof.
  unfold step, marker_free.
  destruct (str_in start_marker l); [discriminate|].
  destruct (skip st); [|discriminate].
  destruct (is_region_end lines l) as [stop|e']; [discriminate|].
  rewrite bind_raise. now intros [= ->].
Qed.

Lemma loop_found (todo : list string) (st st' : scan_state) :
  loop lines st todo = Ok st' ->
  found_marker st' = found_marker st || existsb (str_in start_marker) todo.
Proof.
  revert st. induction todo as [|l todo IH]; intros st.
  - intros [= <-]. now rewrite orb_false_r.
  - rewrite loop_cons. destruct (step lines st l) as [st1|e] eqn:Hstep;
      [rewrite bind_ok | discriminate].
    intros Hloop. rewrite (IH _ Hloop). cbn [existsb].
    destruct (step_cases _ _ _ Hstep) as [[Hm ->] | (Hm & -> & _)];
      rewrite Hm; cbn [found_marker].
    + now rewrite orb_true_r.
    + reflexivity.
Qed.

(** Skipping mode is only ever on after a marker line. *)
Lemma loop_skip_found (todo : list string) (st st' : scan_state) :
  loop lines st todo = Ok st' ->
  (skip st = true -> found_marker st = true) ->
  skip st' = true -> found_marker st' = true.
Proof.
  revert st. induction todo as [|l todo IH]; intros st.
  - now intros [= <-].
  - rewrite loop_cons. destruct (step lines st l) as [st1|e] eqn:Hstep;
      [rewrite bind_ok | discriminate].
    intros Hloop Hinv. apply (IH _ Hloop).
    destruct (step_cases _ _ _ Hstep)
      as [[_ ->] | (_ & -> & [(_ & Hsk & _) | (Hsk & _)])].
    + reflexivity.
    + intros _. now apply Hinv.
    + rewrite Hsk. discriminate.
Qed.

Lemma copied_app (xs ys : list string) : copied (xs ++ ys) = copied xs ++ copied ys.
Proof. apply List.filter_app. Qed.

Lemma copied_line (l : string) : l <> new_code -> copied [l] = [l].
Proof.
  intros Hl. unfold copied. cbn [List.filter].
  assert (String.eqb new_code l = false) as -> by (apply String.eqb_neq; congruence).
  reflexivity.
Qed.

Lemma copied_payload : copied [new_code] = [].
Proof. unfold copied. cbn [List.filter]. now rewrite String.eqb_refl. Qed.

(** The lines copied during the loop are lines of what was still to be
    read, in the same order. *)
Lemma loop_copies_in_order (todo : list string) (st st' : scan_state) :
  Forall (fun l => l <> new_code) todo ->
  loop lines st todo = Ok st' ->
  exists kept,
    kept `sublist_of` todo /\
    copied (new_lines st') = copied (new_lines st) ++ kept.
Proof.
  intros Hne. revert st. induction Hne as [|l todo Hl _ IH]; intros st.
  - intros [= <-]. exists []. split; [constructor | now rewrite app_nil_r].
  - rewrite loop_cons. destruct (step lines st l) as [st1|e] eqn:Hstep;
      [rewrite bind_ok | discriminate].
    intros Hloop. destruct (IH _ Hloop) as (kept & Hsub & Hkept).
    destruct (step_cases _ _ _ Hstep)
      as [[_ ->] | (_ & _ & [(_ & _ & Hout) | (_ & Hout)])].
    + exists (l :: kept). split; [now apply sublist_skip|].
      rewrite Hkept. cbn [new_lines].
      change [l; new_code] with ([l] ++ [new_code]).
      rewrite !copied_app, copied_line, copied_payload by exact Hl.
      now rewrite app_nil_r, <- app_assoc.
    + exists kept. split; [now apply sublist_cons|].
      now rewrite Hkept, Hout.
    + exists (l :: kept). split; [now apply sublist_skip|].
      rewrite Hkept, Hout, copied_app, copied_line by exact Hl.
      now rewrite <- app_assoc.
Qed.

(** If the loop raises, the end-of-region test raised on one of the
    lines still to be read. *)
Lemma loop_raises (todo : list string) (st : scan_state) (e : exn) :
  loop lines st todo = Raise e ->
  exists l, l ∈ todo /\ marker_free l /\ is_region_end lines l = Raise e.
Proof.
  revert st. induction todo as [|l todo IH]; intros st; [discriminate|].
  rewrite loop_cons. destruct (step lines st l) as [st1|e'] eqn:Hstep.
  - rewrite bind_ok. intros Hloop.
    destruct (IH _ Hloop) as (x & Hx & Hrest). exists x.
    split; [now apply list_elem_of_further | exact Hrest].
  - rewrite bind_raise. intros [= ->].
    destruct (step_raises _ _ _ Hstep) as (Hfree & _ & Hraise).
    exists l. split; [apply list_elem_of_here | now split].
Qed.

End LoopInvariants.

(** [lines.index(line)] is the first position: no earlier element is equal
    to [line]. *)
Lemma list_index_least (lines : list string) (l : string) (j : nat) :
  list_index l lines = Ok j -> lines !! j = Some l /\ l ∉ take j lines.
Proof.
  revert j. induction lines as [|y lines IH]; intros j; [discriminate|].
  cbn [list_index]. destruct (String.eqb_spec y l) as [->|Hne].
  - intros [= <-]. split; [reflexivity | apply not_elem_of_nil].
  - destruct (list_index l lines) as [i|e]; [rewrite bind_ok | discriminate].
    intros [= <-]. destruct (IH i eq_refl) as [Hlk Hfresh].
    split; [exact Hlk|]. cbn [take]. apply not_elem_of_cons. now split.
Qed.

(** The end-of-region test raises only [IndexError], and only on a line
    that is the last of the document and occurs nowhere before. *)
Lemma is_region_end_raises (lines : list string) (l : string) (e : exn) :
  l ∈ lines ->
  is_region_end lines l = Raise e ->
  e = IndexError /\
  str_in "useEffect(() => {" l = true /\
  exists init, lines = init ++ [l] /\ l ∉ init.
Proof.
  intros Hin. apply list_elem_of_lookup in Hin as [i Hi].
  destruct (list_index_first _ _ _ Hi) as (j & Hj & _ & _).
  unfold is_region_end.
  destruct (str_in "useEffect(() => {" l); [|discriminate].
  rewrite Hj, bind_ok. unfold getitem.
  destruct (lines !! (j + 1)) as [next|] eqn:Hnext; [discriminate|].
  intros [= <-]. split; [reflexivity|]. split; [reflexivity|].
  destruct (list_index_least _ _ _ Hj) as [Hlk Hfresh].
  exists (take j lines). split; [|exact Hfresh].
  apply lookup_ge_None in Hnext. pose proof (lookup_lt_Some _ _ _ Hlk) as Hlt.
  rewrite <- (take_drop j lines) at 1. f_equal.
  rewrite (drop_S _ _ _ Hlk), drop_ge by lia. reflexivity.
Qed.

Lemma loop_preserves (P : string -> Prop) (lines todo : list string)
    (st st' : scan_state) :
  P new_code -> Forall P todo -> Forall P (new_lines st) ->
  loop lines st todo = Ok st' -> Forall P (new_lines st').
Proof.
  intros Hpay Htodo. revert st. induction Htodo as [|l todo Hl _ IH]; intros st Hst.
  - now intros [= <-].
  - rewrite loop_cons. destruct (step lines st l) as [st1|e] eqn:Hstep;
      [rewrite bind_ok | discriminate].
    apply IH.
    destruct (step_cases _ _ _ _ Hstep)
      as [[_ ->] | (_ & _ & [(_ & _ & ->) | (_ & ->)])]; cbn [new_lines].
    + apply Forall_app. split; [exact Hst | now repeat constructor].
    + exact Hst.
    + apply Forall_app. split; [exact Hst | now repeat constructor].
Qed.

Lemma existsb_has_marker (ls : list string) :
  existsb (str_in start_marker) ls = true <-> Exists has_marker ls.
Proof.
  unfold has_marker. induction ls as [|l ls IH]; cbn [existsb].
  - split; [discriminate | intros H; inversion H].
  - rewrite orb_true_iff, Exists_cons, IH. reflexivity.
Qed.

Lemma existsb_marker_free (ls : list string) :
  existsb (str_in start_marker) ls = false <-> Forall marker_free ls.
Proof.
  unfold marker_free. induction ls as [|l ls IH]; cbn [existsb].
  - split; [constructor | reflexivity].
  - rewrite orb_false_iff, Forall_cons, IH. reflexivity.
Qed.

Lemma scan_found (lines : list string) (st : scan_state) :
  scan lines = Ok st ->
  found_marker st = existsb (str_in start_marker) lines.
Proof. intros Hscan. now rewrite (loop_found _ _ _ _ Hscan). Qed.

Lemma scan_raises_index_error (lines : list string) (e : exn) :
  scan lines = Raise e -> e = IndexError.
Proof.
  intros Hscan. destruct (loop_raises _ _ _ _ Hscan) as (l & Hin & _ & Hraise).
  now destruct (is_region_end_raises _ _ _ Hin Hraise).
Qed.

(** ** Further properties of [fix_builtup.py] *)

(** X1 (where the loop can fail).  The loop raises nothing but
    [IndexError], and only on a document whose last line opens an effect,
    contains no marker and is equal to no earlier line, with a marker line
    somewhere before it. *)
Theorem scan_raises_only_at_end (lines : list string) (e : exn) :
  scan lines = Raise e ->
  e = IndexError /\
  exists init l,
    lines = init ++ [l] /\ (l ∉ init) /\ marker_free l /\
    str_in "useEffect(() => {" l = true /\ Exists has_marker init.
Proof.
  intros Hscan.
  destruct (loop_raises _ _ _ _ Hscan) as (l & Hin & Hfree & Hraise).
  destruct (is_region_end_raises _ _ _ Hin Hraise) as (-> & Hshape & init & Hlines & Hfresh).
  split; [reflexivity|]. exists init, l.
  do 4 (split; [assumption|]).
  unfold scan in Hscan. rewrite Hlines in Hscan at 2.
  rewrite loop_app in Hscan.
  destruct (loop lines initial init) as [st1|e1] eqn:Hinit.
  - rewrite bind_ok, loop_cons in Hscan.
    destruct (step lines st1 l) as [st2|e2] eqn:Hstep; [discriminate|].
    destruct (step_raises _ _ _ _ Hstep) as (_ & Hskip & _).
    apply existsb_has_marker.
    pose proof (loop_found _ _ _ _ Hinit) as Hfound.
    rewrite (loop_skip_found _ _ _ _ Hinit) in Hfound by (discriminate || assumption).
    now rewrite Hfound.
  - destruct (loop_raises _ _ _ _ Hinit) as (l' & Hin' & _ & Hraise').
    assert (l' ∈ lines) as Hin'' by (rewrite Hlines; apply elem_of_app; now left).
    destruct (is_region_end_raises _ _ _ Hin'' Hraise') as (_ & _ & init' & Hlines' & _).
    rewrite Hlines in Hlines'. apply app_inj_tail in Hlines' as [_ ->].
    contradiction.
Qed.

Lemma scan_raises_only_at_end_witness :
  IndexError = IndexError /\
  exists init l,
    readlines doc_effect_last = init ++ [l] /\ (l ∉ init) /\ marker_free l /\
    str_in "useEffect(() => {" l = true /\ Exists has_marker init.
Proof.
  apply (scan_raises_only_at_end (readlines doc_effect_last) IndexError).
  vm_compute. reflexivity.
Defined.

(** X2 (the marker decides the outcome).  A run that ends normally either
    found the marker on some line, overwrote the file with the output of
    the loop and printed the success message, or found it on no line, left
    the file store as it was and printed the not-found message. *)
Theorem marker_decides_outcome (w w' : world) (c : string) :
  files w !! filepath = Some c ->
  main w = (w', Ok tt) ->
  (Exists has_marker (readlines c) /\
   (exists st, scan (readlines c) = Ok st /\
               files w' = <[filepath := join (new_lines st)]> (files w)) /\
   printed (trace w') = printed (trace w) ++ [msg_updated]) \/
  (Forall marker_free (readlines c) /\
   files w' = files w /\
   printed (trace w') = printed (trace w) ++ [msg_not_found]).
Proof.
  intros Hc Hmain. rewrite (main_by_scan w c Hc) in Hmain.
  destruct (scan (readlines c)) as [st|e] eqn:Hscan; [|discriminate].
  pose proof (scan_found _ _ Hscan) as Hfound.
  destruct (found_marker st); injection Hmain as <-;
    match goal with
    | |- context [trace (World ?f ?t)] => change (trace (World f t)) with t
    end; cbn [files].
  - left. split; [now apply existsb_has_marker|].
    split; [now exists st|].
    rewrite printed_app. f_equal.
    change (printed (map (EvWrite filepath) (new_lines st) ++ [EvPrint msg_updated])
            = [msg_updated]).
    now rewrite printed_app, printed_writes.
  - right. split; [now apply existsb_marker_free|].
    split; [reflexivity|]. now rewrite printed_app.
Qed.

Lemma marker_decides_outcome_witness :
  (Exists has_marker (readlines doc_open) /\
   (exists st, scan (readlines doc_open) = Ok st /\
               files (main (world_of doc_open)).1
               = <[filepath := join (new_lines st)]> (files (world_of doc_open))) /\
   printed (trace (main (world_of doc_open)).1)
   = printed (trace (world_of doc_open)) ++ [msg_updated]) \/
  (Forall marker_free (readlines doc_open) /\
   files (main (world_of doc_open)).1 = files (world_of doc_open) /\
   printed (trace (main (world_of doc_open)).1)
   = printed (trace (world_of doc_open)) ++ [msg_not_found]).
Proof.
  apply (marker_decides_outcome (world_of doc_open) _ doc_open).
  - reflexivity.
  - vm_compute. reflexivity.
Defined.

(** X3 (a failure of the loop changes nothing).  When the loop raises on
    the lines read from the file, the exception is [IndexError] and the
    run stops there: the file store is as before, nothing has been opened
    for writing or written, and no message has been printed. *)
Theorem loop_failure_changes_nothing (w : world) (c : string) (e : exn) :
  files w !! filepath = Some c ->
  scan (readlines c) = Raise e ->
  e = IndexError /\
  exists added,
    main w = (World (files w) (trace w ++ added), Raise IndexError) /\
    List.filter is_write added = [] /\
    printed added = [].
Proof.
  intros Hc Hscan. pose proof (scan_raises_index_error _ _ Hscan) as ->.
  split; [reflexivity|]. exists [EvOpenRead filepath].
  split; [|now split].
  now rewrite (main_by_scan w c Hc), Hscan.
Qed.

Lemma loop_failure_changes_nothing_witness :
  IndexError = IndexError /\
  exists added,
    main (world_of doc_effect_last)
    = (World (files (world_of doc_effect_last))
             (trace (world_of doc_effect_last) ++ added), Raise IndexError) /\
    List.filter is_write added = [] /\
    printed added = [].
Proof.
  apply (loop_failure_changes_nothing (world_of doc_effect_last) doc_effect_last
           IndexError).
  - reflexivity.
  - vm_compute. reflexivity.
Defined.

Lemma printed_success (t : list event) (path : string) (ls : list string)
    (msg : string) :
  printed (t ++ [EvOpenRead path; EvOpenWrite path]
             ++ map (EvWrite path) ls ++ [EvPrint msg])
  = printed t ++ [msg].
Proof.
  rewrite printed_app. f_equal.
  change (printed (map (EvWrite path) ls ++ [EvPrint msg]) = [msg]).
  now rewrite printed_app, printed_writes.
Qed.

(** What a run that found the marker leaves behind. *)
Lemma main_found (w : world) (c : string) (st : scan_state) :
  files w !! filepath = Some c ->
  scan (readlines c) = Ok st ->
  Exists has_marker (readlines c) ->
  (main w).2 = Ok tt /\
  files (main w).1 = <[filepath := join (new_lines st)]> (files w) /\
  printed (trace (main w).1) = printed (trace w) ++ [msg_updated].
Proof.
  intros Hc Hscan Hm. rewrite (main_by_scan w c Hc), Hscan.
  apply existsb_has_marker in Hm. rewrite <- (scan_found _ _ Hscan) in Hm.
  rewrite Hm. cbn [fst snd files trace].
  split; [reflexivity|]. split; [reflexivity|]. apply printed_success.
Qed.

(** X4 (other files).  Whatever the outcome of the run, no file other
    than the target is created, changed or removed. *)
Theorem fix_builtup_frame (w : world) (p : string) :
  p <> filepath -> files (main w).1 !! p = files w !! p.
Proof.
  intros Hp. destruct (files w !! filepath) as [c|] eqn:Hc.
  - rewrite (main_by_scan w c Hc).
    destruct (scan (readlines c)) as [st|e]; [|reflexivity].
    destruct (found_marker st); [|reflexivity].
    cbn [fst files]. now rewrite lookup_insert_ne.
  - now rewrite (main_no_file w Hc).
Qed.

Lemma fix_builtup_frame_witness :
  files (main (world_beside doc_plain)).1 !! other_path
  = files (world_beside doc_plain) !! other_path.
Proof.
  apply (fix_builtup_frame (world_beside doc_plain) other_path).
  differ.
Defined.

(** X5 (other files, whole-file rewrite).  [reconstruct_inventory.py]
    touches no file other than the target. *)
Theorem reconstruct_frame (w : world) (p : string) :
  p <> ReconstructInventory.filepath ->
  files (ReconstructInventory.main w).1 !! p = files w !! p.
Proof.
  intros Hp. rewrite reconstruct_run. cbn [fst files].
  now rewrite lookup_insert_ne.
Qed.

Lemma reconstruct_frame_witness :
  files (ReconstructInventory.main (world_beside doc_plain)).1 !! other_path
  = files (world_beside doc_plain) !! other_path.
Proof.
  apply (reconstruct_frame (world_beside doc_plain) other_path).
  differ.
Defined.

Lemma scan_free_of_cr (c : string) (st : scan_state) :
  scan (readlines c) = Ok st ->
  Forall (fun l => free_of CR l = true) (new_lines st).
Proof.
  apply loop_preserves.
  - apply new_code_free_of_cr.
  - apply readlines_free_of_cr.
  - constructor.
Qed.

(** X6 (line endings).  A run that finds the marker writes a file without
    any carriage return: the CR LF and CR line endings of the lines kept
    are replaced by LF. *)
Theorem written_file_has_no_cr (w w' : world) (c : string) :
  files w !! filepath = Some c ->
  Exists has_marker (readlines c) ->
  main w = (w', Ok tt) ->
  exists c', files w' !! filepath = Some c' /\ free_of CR c' = true.
Proof.
  intros Hc Hm Hmain.
  pose proof (main_by_scan w c Hc) as Hrun. rewrite Hmain in Hrun.
  destruct (scan (readlines c)) as [st|e] eqn:Hscan; [|discriminate].
  destruct (main_found w c st Hc Hscan Hm) as (_ & Hfiles & _).
  rewrite Hmain in Hfiles. cbn [fst] in Hfiles.
  exists (join (new_lines st)). split.
  - rewrite Hfiles. apply lookup_insert_eq.
  - apply free_of_join. now apply (scan_free_of_cr c).
Qed.

Lemma written_file_has_no_cr_witness :
  exists c', files (main (world_of doc_crlf)).1 !! filepath = Some c'
             /\ free_of CR c' = true.
Proof.
  apply (written_file_has_no_cr (world_of doc_crlf) _ doc_crlf).
  - reflexivity.
  - apply existsb_has_marker. vm_compute. reflexivity.
  - vm_compute. reflexivity.
Defined.

(** X7 (order of the copied lines).  On every document on which the loop
    completes, the elements of the output other than the payload are lines
    of the document, in document order, each line used at most once. *)
Theorem copied_lines_in_order (c : string) (st : scan_state) :
  scan (readlines c) = Ok st ->
  copied (new_lines st) `sublist_of` readlines c.
Proof.
  intros Hscan. unfold scan in Hscan.
  apply loop_copies_in_order in Hscan as (kept & Hsub & Hkept).
  - now rewrite Hkept.
  - apply Forall_forall. intros l Hl. now apply (readlines_not_payload c).
Qed.

Lemma copied_lines_in_order_witness :
  copied [marker_line; new_code; effect_line; system_line; "kept" +:+ nl;
          marker_line; new_code]
  `sublist_of` readlines doc_two_markers.
Proof.
  apply (copied_lines_in_order doc_two_markers
           (ScanState [marker_line; new_code; effect_line; system_line;
                       "kept" +:+ nl; marker_line; new_code] true true)).
  vm_compute. reflexivity.
Defined.

(** X9 (marker on the last line).  When the only marker line is the last
    line of the file, the run appends the payload to the content (line
    endings translated); if that line has no terminator, the payload
    starts on the marker line itself. *)
Theorem marker_on_last_line (w : world) (c : string) (pre : list string)
    (m : string) :
  files w !! filepath = Some c ->
  readlines c = pre ++ [m] ->
  has_marker m ->
  Forall marker_free pre ->
  (main w).2 = Ok tt /\
  files (main w).1 !! filepath = Some (universal_newlines c +:+ new_code).
Proof.
  intros Hc Hlines Hm Hpre.
  assert (scan (readlines c) = Ok (ScanState (pre ++ [m; new_code]) true true))
    as Hscan.
  { apply (scan_unterminated _ pre [] m);
      [exact Hlines | exact Hm | now rewrite app_nil_r | constructor]. }
  rewrite (main_by_scan w c Hc), Hscan. cbn [found_marker new_lines fst snd files].
  split; [reflexivity|].
  rewrite lookup_insert_eq, <- join_readlines, Hlines.
  change [m; new_code] with ([m] ++ [new_code]).
  rewrite app_assoc, join_app. cbn [join]. now rewrite append_empty_r.
Qed.

Lemma marker_on_last_line_witness :
  (main (world_of doc_marker_last)).2 = Ok tt /\
  files (main (world_of doc_marker_last)).1 !! filepath
  = Some (universal_newlines doc_marker_last +:+ new_code).
Proof.
  apply (marker_on_last_line (world_of doc_marker_last) doc_marker_last
           ["head" +:+ nl] ("    " +:+ start_marker)).
  - reflexivity.
  - vm_compute. reflexivity.
  - vm_compute. reflexivity.
  - repeat constructor.
Defined.

(** ** Substrings and lines *)

Lemma str_in_cons (sub : string) (c : ascii) (s : string) :
  str_in sub (String c s) = startswith sub (String c s) || str_in sub s.
Proof. reflexivity. Qed.

Lemma startswith_str_in (sub s : string) :
  startswith sub s = true -> str_in sub s = true.
Proof. intros H. destruct s; cbn [str_in]; now rewrite H. Qed.

Lemma startswith_append (p s t : string) :
  startswith p s = true -> startswith p (s +:+ t) = true.
Proof.
  revert s. induction p as [|a p IH]; intros s; [reflexivity|].
  destruct s as [|b s]; [discriminate|].
  rewrite append_cons. cbn [startswith].
  destruct (Ascii.eqb a b); [apply IH | discriminate].
Qed.

Lemma str_in_append_l (sub s t : string) :
  str_in sub s = true -> str_in sub (s +:+ t) = true.
Proof.
  induction s as [|c s IH].
  - cbn [str_in]. rewrite orb_false_r. intros H.
    apply startswith_str_in. now apply (startswith_append sub EmptyString t).
  - rewrite append_cons, !str_in_cons, !orb_true_iff.
    intros [H|H]; [left | right; now apply IH].
    now apply (startswith_append sub (String c s) t).
Qed.

Lemma str_in_append_r (sub s t : string) :
  str_in sub t = true -> str_in sub (s +:+ t) = true.
Proof.
  intros H. induction s as [|c s IH]; [exact H|].
  now rewrite append_cons, str_in_cons, IH, orb_true_r.
Qed.

Lemma str_in_join (sub l : string) (ls : list string) :
  l ∈ ls -> str_in sub l = true -> str_in sub (join ls) = true.
Proof.
  intros Hin Hl. induction Hin as [l ls|l x ls _ IH]; cbn [join].
  - now apply str_in_append_l.
  - apply str_in_append_r, IH, Hl.
Qed.

(** A text without line feed that starts [s] starts the first line of
    [s]. *)
Lemma startswith_first_line (sub s : string) :
  sub <> EmptyString -> free_of LF sub = true -> startswith sub s = true ->
  exists l ls, splitlines_keepends s = l :: ls /\ startswith sub l = true.
Proof.
  revert s. induction sub as [|a sub IH]; intros s Hne Hfree Hstart; [congruence|].
  destruct s as [|c s]; [discriminate|].
  cbn [startswith] in Hstart.
  destruct (Ascii.eqb a c) eqn:Hac; [|discriminate].
  apply Ascii.eqb_eq in Hac as <-.
  cbn [free_of] in Hfree. apply andb_true_iff in Hfree as [Ha Hfree].
  apply negb_true_iff in Ha.
  cbn [splitlines_keepends]. rewrite Ha.
  destruct sub as [|a' sub].
  - destruct (splitlines_keepends s) as [|l ls]; eexists _, _;
      (split; [reflexivity|]); cbn [startswith]; now rewrite Ascii.eqb_refl.
  - destruct (IH s) as (l & ls & -> & Hl); [discriminate | exact Hfree | exact Hstart|].
    exists (String a l), ls. split; [reflexivity|].
    cbn [startswith] in *. now rewrite Ascii.eqb_refl.
Qed.

(** A text without line feed that occurs in [s] occurs in one of the
    lines of [s]. *)
Lemma str_in_some_line (sub s : string) :
  sub <> EmptyString -> free_of LF sub = true -> str_in sub s = true ->
  Exists (fun l => str_in sub l = true) (splitlines_keepends s).
Proof.
  intros Hne Hfree. induction s as [|c s IH].
  - cbn [str_in]. rewrite orb_false_r. destruct sub; [congruence | discriminate].
  - rewrite str_in_cons, orb_true_iff. intros [Hstart|Hin].
    + destruct (startswith_first_line _ _ Hne Hfree Hstart) as (l & ls & -> & Hl).
      apply Exists_cons_hd. now apply startswith_str_in.
    + specialize (IH Hin). cbn [splitlines_keepends].
      destruct (Ascii.eqb c LF); [now apply Exists_cons_tl|].
      destruct (splitlines_keepends s) as [|l ls]; [inversion IH|].
      apply Exists_cons in IH as [Hl|Hls].
      * apply Exists_cons_hd. now rewrite str_in_cons, Hl, orb_true_r.
      * now apply Exists_cons_tl.
Qed.

Lemma start_marker_one_line :
  start_marker <> EmptyString /\ free_of LF start_marker = true.
Proof. split; [discriminate | vm_compute; reflexivity]. Qed.

(** X10 (running again).  After a run that found the marker, the file
    still has a line containing the marker: a second run never reports
    that the marker is missing; if it ends normally it overwrites the file
    again and prints the success message. *)
Theorem rerun_finds_marker (w w1 : world) (c : string) :
  files w !! filepath = Some c ->
  Exists has_marker (readlines c) ->
  main w = (w1, Ok tt) ->
  exists c1,
    files w1 !! filepath = Some c1 /\
    Exists has_marker (readlines c1) /\
    forall w2, main w1 = (w2, Ok tt) ->
               printed (trace w2) = printed (trace w1) ++ [msg_updated].
Proof.
  intros Hc Hm Hmain.
  pose proof (main_by_scan w c Hc) as Hrun. rewrite Hmain in Hrun.
  destruct (scan (readlines c)) as [st|e] eqn:Hscan; [|discriminate].
  destruct (main_found w c st Hc Hscan Hm) as (_ & Hfiles & _).
  rewrite Hmain in Hfiles. cbn [fst] in Hfiles.
  assert (files w1 !! filepath = Some (join (new_lines st))) as Hc1
    by (rewrite Hfiles; apply lookup_insert_eq).
  assert (Exists has_marker (readlines (join (new_lines st)))) as Hm1.
  { unfold readlines. rewrite universal_newlines_id
      by (apply free_of_join; now apply (scan_free_of_cr c)).
    destruct start_marker_one_line as [Hne Hlf].
    apply (str_in_some_line start_marker); [exact Hne | exact Hlf|].
    apply Exists_exists in Hm as (m & Hin & Hmark).
    destruct (loop_marker_followed _ _ _ _ _ Hscan Hin Hmark) as (l1 & l2 & Hout).
    apply (str_in_join _ m); [|exact Hmark].
    rewrite Hout. apply elem_of_app. right. apply list_elem_of_here. }
  exists (join (new_lines st)). split; [exact Hc1|]. split; [exact Hm1|].
  intros w2 Hmain2.
  pose proof (main_by_scan w1 _ Hc1) as Hrun2. rewrite Hmain2 in Hrun2.
  destruct (scan (readlines (join (new_lines st)))) as [st2|e2] eqn:Hscan2;
    [|discriminate].
  destruct (main_found w1 _ st2 Hc1 Hscan2 Hm1) as (_ & _ & Hprint).
  now rewrite Hmain2 in Hprint.
Qed.

Lemma rerun_finds_marker_witness :
  exists c1,
    files (main (world_of doc_plain)).1 !! filepath = Some c1 /\
    Exists has_marker (readlines c1) /\
    forall w2, main (main (world_of doc_plain)).1 = (w2, Ok tt) ->
               printed (trace w2)
               = printed (trace (main (world_of doc_plain)).1) ++ [msg_updated].
Proof.
  apply (rerun_finds_marker (world_of doc_plain) _ doc_plain).
  - reflexivity.
  - apply existsb_has_marker. vm_compute. reflexivity.
  - vm_compute. reflexivity.
Defined.

(** X12 (documents on which the loop cannot fail).  When the last line of
    the document does not open an effect, or the document is empty, the
    loop returns its three variables without raising. *)
Theorem scan_completes (lines : list string) :
  match last lines with
  | Some l => str_in "useEffect(() => {" l = false
  | None => True
  end ->
  exists st, scan lines = Ok st.
Proof.
  intros Hlast. destruct (scan lines) as [st|e] eqn:Hscan; [now exists st|].
  destruct (loop_raises _ _ _ _ Hscan) as (l & Hin & _ & Hraise).
  destruct (is_region_end_raises _ _ _ Hin Hraise) as (_ & Hshape & init & -> & _).
  rewrite last_snoc in Hlast. congruence.
Qed.

Lemma scan_completes_witness :
  exists st, scan (readlines doc_two_markers_open) = Ok st.
Proof.
  apply (scan_completes (readlines doc_two_markers_open)).
  vm_compute. reflexivity.
Defined.

(** ** The test of the loop and the condition of the specification *)

Lemma nodup_filter_lookup (P : string -> bool) (ls : list string) (i j : nat)
    (l : string) :
  NoDup (List.filter P ls) -> ls !! i = Some l -> ls !! j = Some l ->
  P l = true -> i = j.
Proof.
  revert i j. induction ls as [|x ls IH]; intros i j Hnd Hi Hj Hl; [discriminate|].
  assert (forall k, ls !! k = Some l -> l ∈ List.filter P ls) as Hmem.
  { intros k Hk. apply list_elem_of_In, filter_In. split; [|exact Hl].
    apply list_elem_of_In, list_elem_of_lookup. now exists k. }
  cbn [List.filter] in Hnd.
  destruct i as [|i], j as [|j]; cbn in Hi, Hj.
  - reflexivity.
  - injection Hi as ->. rewrite Hl in Hnd. apply NoDup_cons in Hnd as [Hnot _].
    destruct Hnot. now apply (Hmem j).
  - injection Hj as ->. rewrite Hl in Hnd. apply NoDup_cons in Hnd as [Hnot _].
    destruct Hnot. now apply (Hmem i).
  - f_equal. apply IH; trivial.
    destruct (P x); [now apply NoDup_cons in Hnd as [_ Hnd] | exact Hnd].
Qed.

(** A line that opens an effect and is not repeated among the first
    [k + 1] lines is found by [index] where it stands. *)
Lemma list_index_unrepeated (lines : list string) (j k : nat) (l : string) :
  j <= k ->
  NoDup (effect_lines (take (S k) lines)) ->
  lines !! j = Some l ->
  str_in "useEffect(() => {" l = true ->
  list_index l lines = Ok j.
Proof.
  intros Hjk Hnd Hj Hl.
  destruct (list_index_first _ _ _ Hj) as (j' & Hindex & Hle & Hj').
  rewrite Hindex. f_equal.
  apply (nodup_filter_lookup _ (take (S k) lines) j' j l Hnd); trivial;
    rewrite lookup_take_lt by lia; assumption.
Qed.

(** On such a line, when it is not the last of the document, the test of
    the loop is the condition of the specification. *)
Lemma is_region_end_positional (lines : list string) (j k : nat) (l : string) :
  j <= k ->
  NoDup (effect_lines (take (S k) lines)) ->
  lines !! j = Some l ->
  S j < length lines ->
  is_region_end lines l = Ok (boundary_at lines j).
Proof.
  intros Hjk Hnd Hj Hlen. unfold boundary_at. rewrite Hj.
  destruct (lookup_lt_is_Some_2 lines (j + 1)) as [next Hnext]; [lia|].
  rewrite Hnext. unfold is_region_end_spec.
  destruct (str_in "useEffect(() => {" l) eqn:Hl.
  - rewrite (is_region_end_by_first lines l next j); trivial.
    now apply (list_index_unrepeated lines j k).
  - unfold is_region_end. now rewrite Hl.
Qed.

(** The positions of a document cut at its marker line and at a later
    line. *)
Lemma cut_lookup_region (pre mid post : list string) (m b : string) (t : nat)
    (l : string) :
  mid !! t = Some l ->
  (pre ++ m :: mid ++ b :: post) !! (length pre + 1 + t) = Some l.
Proof.
  intros Ht. rewrite lookup_app_r by lia.
  replace (length pre + 1 + t - length pre) with (S t) by lia.
  change ((mid ++ b :: post) !! t = Some l).
  rewrite lookup_app_l by (eapply lookup_lt_Some, Ht). exact Ht.
Qed.

Lemma cut_lookup_boundary (pre mid post : list string) (m b : string) :
  (pre ++ m :: mid ++ b :: post) !! (length pre + 1 + length mid) = Some b.
Proof.
  rewrite lookup_app_r by lia.
  replace (length pre + 1 + length mid - length pre) with (S (length mid)) by lia.
  change ((mid ++ b :: post) !! length mid = Some b).
  now apply list_lookup_middle.
Qed.

Lemma cut_take (pre mid post : list string) (m b : string) :
  take (S (length pre + 1 + length mid)) (pre ++ m :: mid ++ b :: post)
  = pre ++ m :: mid ++ [b].
Proof.
  replace (pre ++ m :: mid ++ b :: post) with ((pre ++ m :: mid ++ [b]) ++ post)
    by (rewrite <- !app_assoc; cbn; now rewrite <- app_assoc).
  apply take_app_length'. rewrite !length_app. cbn. rewrite length_app. cbn. lia.
Qed.

(** The loop on a document with one marker line, whose lines opening an
    effect are not repeated up to the first later position at which the
    condition of the specification holds. *)
Lemma scan_splice_positional (lines pre mid post : list string) (m b : string) :
  lines = pre ++ m :: mid ++ b :: post ->
  has_marker m ->
  Forall marker_free (pre ++ mid ++ b :: post) ->
  NoDup (effect_lines (pre ++ m :: mid ++ [b])) ->
  (forall t, t < length mid -> boundary_at lines (length pre + 1 + t) = false) ->
  boundary_at lines (length pre + 1 + length mid) = true ->
  scan lines = Ok (ScanState (pre ++ [m; new_code] ++ b :: post) false true).
Proof.
  intros Hlines Hm Hfree Hnd Hbefore Hat.
  rewrite <- cut_take with (post := post), <- Hlines in Hnd.
  pose proof (cut_lookup_boundary pre mid post m b) as Hb. rewrite <- Hlines in Hb.
  apply (scan_splice lines pre mid post m b); trivial.
  - apply Forall_forall. intros l Hl.
    apply list_elem_of_lookup in Hl as [t Ht].
    pose proof (lookup_lt_Some _ _ _ Ht) as Hlt.
    pose proof (cut_lookup_region pre mid post m b t l Ht) as Hpos.
    rewrite <- Hlines in Hpos. unfold ends_region.
    apply lookup_lt_Some in Hb.
    rewrite (is_region_end_positional lines (length pre + 1 + t)
               (length pre + 1 + length mid) l) by (assumption || lia).
    rewrite Hbefore by exact Hlt. discriminate.
  - unfold ends_region.
    rewrite (is_region_end_positional lines (length pre + 1 + length mid)
               (length pre + 1 + length mid) b); trivial.
    + now rewrite Hat.
    + unfold boundary_at in Hat. rewrite Hb in Hat.
      destruct (lines !! (length pre + 1 + length mid + 1)) eqn:Hnext;
        [|discriminate].
      apply lookup_lt_Some in Hnext. lia.
Qed.

(** C1 (exact splice) on a document whose boundary line also stands
    before the marker.  The marker is on exactly one line (position 2),
    position 4 is the first later position at which a line opening an
    effect is followed by the [fetchSystemData] line, and yet the output
    is the first three lines and the payload only: the lines from the
    boundary on are dropped, and the file written is not the splice. *)
Theorem exact_splice_breaks_on_repeated_line :
  let lines := readlines doc_effect_twice in
  marker_lines lines = 1 /\
  lines !! 2 = Some marker_line /\
  boundary_at lines 3 = false /\
  boundary_at lines 4 = true /\
  scan lines = Ok (ScanState (take 3 lines ++ [new_code]) true true) /\
  target (main (world_of doc_effect_twice)).1
  = Some (join (take 3 lines) +:+ new_code) /\
  target (main (world_of doc_effect_twice)).1
  <> Some (join (take 3 lines) +:+ new_code +:+ join (drop 4 lines)).
Proof.
  cbv zeta.
  split; [vm_compute; reflexivity|].
  split; [vm_compute; reflexivity|].
  split; [vm_compute; reflexivity|].
  split; [vm_compute; reflexivity|].
  split; [vm_compute; reflexivity|].
  split; [vm_compute; reflexivity | differ].
Qed.

(** The same on the file that [reconstruct_inventory.py] writes: one
    marker line, at position 299; position 327 is the first later
    position at which the condition of the specification holds; the loop
    keeps the first 300 lines and the payload. *)
Lemma exact_splice_breaks_on_reconstructed_file :
  let lines := readlines ReconstructInventory.code in
  free_of CR ReconstructInventory.code = true /\
  marker_lines lines = 1 /\
  (exists m, lines !! 299 = Some m /\ str_in start_marker m = true) /\
  forallb (fun i => negb (boundary_at lines i)) (seq 300 27) = true /\
  boundary_at lines 327 = true /\
  scan lines = Ok (ScanState (take 300 lines ++ [new_code]) true true).
Proof.
  cbv zeta.
  split; [vm_compute; reflexivity|].
  split; [vm_compute; reflexivity|].
  split; [eexists; split; vm_compute; reflexivity|].
  split; [vm_compute; reflexivity|].
  split; vm_compute; reflexivity.
Qed.

(** X8 (the bytes of the splice).  For a file without carriage returns,
    with the marker on exactly one line, a first later position at which a
    line opening an effect is followed by a line mentioning
    [fetchSystemData], and no line opening an effect repeated up to that
    position: the content is the bytes up to the end of the marker line,
    the bytes of the region, and the bytes from the boundary on; the run
    replaces the bytes of the region by the payload and leaves the rest as
    it is. *)
Theorem splice_replaces_region_bytes (w : world) (c : string)
    (pre mid post : list string) (m b : string) :
  files w !! filepath = Some c ->
  free_of CR c = true ->
  readlines c = pre ++ m :: mid ++ b :: post ->
  has_marker m ->
  Forall marker_free (pre ++ mid ++ b :: post) ->
  NoDup (effect_lines (pre ++ m :: mid ++ [b])) ->
  (forall t, t < length mid ->
             boundary_at (readlines c) (length pre + 1 + t) = false) ->
  boundary_at (readlines c) (length pre + 1 + length mid) = true ->
  c = (join pre +:+ m) +:+ join mid +:+ join (b :: post) /\
  files (main w).1 !! filepath
  = Some ((join pre +:+ m) +:+ new_code +:+ join (b :: post)).
Proof.
  intros Hc Hcr Hlines Hm Hfree Hnd Hbefore Hat. split.
  - rewrite <- (universal_newlines_id c Hcr) at 1.
    rewrite <- join_readlines, Hlines, join_app. cbn [join].
    now rewrite join_app, !append_assoc.
  - pose proof (scan_splice_positional _ _ _ _ _ _ Hlines Hm Hfree Hnd Hbefore Hat)
      as Hscan.
    rewrite (main_by_scan w c Hc), Hscan. cbn [found_marker new_lines fst files].
    rewrite lookup_insert_eq, join_app. cbn [app join].
    now rewrite !append_assoc.
Qed.

Lemma splice_replaces_region_bytes_witness :
  doc_plain
  = (join [] +:+ marker_line) +:+ join ["old 1" +:+ nl; "old 2" +:+ nl]
    +:+ join (effect_line :: [system_line; "tail" +:+ nl]) /\
  files (main (world_of doc_plain)).1 !! filepath
  = Some ((join [] +:+ marker_line) +:+ new_code
          +:+ join (effect_line :: [system_line; "tail" +:+ nl])).
Proof.
  apply (splice_replaces_region_bytes (world_of doc_plain) doc_plain []
           ["old 1" +:+ nl; "old 2" +:+ nl] [system_line; "tail" +:+ nl]
           marker_line effect_line).
  - reflexivity.
  - vm_compute. reflexivity.
  - vm_compute. reflexivity.
  - vm_compute. reflexivity.
  - repeat constructor.
  - vm_compute. apply NoDup_singleton.
  - intros t Ht. destruct t as [|[|t]]; [vm_compute; reflexivity.. |].
    cbn in Ht. lia.
  - vm_compute. reflexivity.
Defined.
